(** * AuraFlow, [src/llms/llm.py]: the chat-model factory and its cache

    A shallow embedding of the module that builds chat-model clients from
    layered configuration (YAML file, environment variables, detection of a
    local LM Studio server) and memoises them by role.

    Conventions of the embedding.
    - Python values are the inductive [value]; a [dict] with string keys is a
      [gmap string value].  Dictionaries whose keys are not strings are not
      represented.
    - Strings are Rocq byte strings; [str.upper] and [str.lower] are the
      ASCII case maps.
    - Effects are threaded through the monad [M]: the module-level cache,
      the allocation of client objects, and a trace of what the code does to
      the outside (HTTP requests, constructor calls, printed lines).
      Exceptions are the left summand of the result; every exception of the
      model is an instance of [Exception], so [except Exception] catches it
      (asynchronous interrupts are outside the model).
    - Everything the module reads from outside is a field of [world]: the
      process environment, the outcome of [load_yaml_config], the answers of
      the network and whether an external client constructor accepts its
      keyword arguments. *)

From stdpp Require Import gmap strings list fin_maps.
From Stdlib Require Import ZArith String Ascii Lia.

Open Scope string_scope.

(** ** Python values *)

Module Py.

#[warnings="-register-all"]
Inductive value : Type :=
  | VNone
  | VBool (b : bool)
  | VInt (z : Z)
  | VFloat (mantissa exponent : Z)   (* the finite float mantissa * 2^exponent *)
  | VStr (s : string)
  | VList (l : list value)
  | VDict (m : gmap string value)
  | VHttpClient (verify : bool)        (* httpx.Client(verify=...) *)
  | VHttpAsyncClient (verify : bool).  (* httpx.AsyncClient(verify=...) *)

(** Python truth value testing, [bool(v)]. *)
Definition truthy (v : value) : bool :=
  match v with
  | VNone => false
  | VBool b => b
  | VInt z => negb (z =? 0)%Z
  | VFloat m _ => negb (m =? 0)%Z
  | VStr s => negb (String.eqb s "")
  | VList l => match l with [] => false | _ => true end
  | VDict m => negb (bool_decide (m = ∅))
  | VHttpClient _ | VHttpAsyncClient _ => true
  end.

(** An f-string is kept as its sequence of literal and interpolated parts. *)
Inductive fragment : Type :=
  | Lit (s : string)
  | Fmt (v : value).

(** An exception: the name of its class and its message. *)
Record exn : Type := mkExn { exn_class : string; exn_msg : list fragment }.

Definition ValueError (msg : list fragment) : exn := mkExn "ValueError" msg.
Definition TypeError (msg : list fragment) : exn := mkExn "TypeError" msg.
Definition AttributeError (msg : list fragment) : exn := mkExn "AttributeError" msg.

(** *** Strings *)

Definition ascii_upper (c : ascii) : ascii :=
  let n := nat_of_ascii c in
  if Nat.leb 97 n && Nat.leb n 122 then ascii_of_nat (n - 32) else c.

Definition ascii_lower (c : ascii) : ascii :=
  let n := nat_of_ascii c in
  if Nat.leb 65 n && Nat.leb n 90 then ascii_of_nat (n + 32) else c.

Fixpoint string_map (f : ascii → ascii) (s : string) : string :=
  match s with
  | EmptyString => EmptyString
  | String c s' => String (f c) (string_map f s')
  end.

(** [s.upper()] and [s.lower()] as they are on ASCII strings, where only the
    letters a-z and A-Z change.  Statements about the keys that environment
    variable names give are made for ASCII names. *)
Definition upper : string → string := string_map ascii_upper.
Definition lower : string → string := string_map ascii_lower.

(** [s.startswith(p)] *)
Definition startswith (s p : string) : bool := String.prefix p s.

(** [s[n:]] *)
Fixpoint slice_from (n : nat) (s : string) : string :=
  match n, s with
  | O, _ => s
  | S n', String _ s' => slice_from n' s'
  | S _, EmptyString => EmptyString
  end.

(** [needle in s] for two strings *)
Fixpoint str_contains (needle s : string) : bool :=
  String.prefix needle s ||
  match s with
  | EmptyString => false
  | String _ s' => str_contains needle s'
  end.

Definition is_str (needle : string) (v : value) : bool :=
  match v with VStr s => String.eqb s needle | _ => false end.

(** *** Dictionaries *)

(** [{**a, **b}]: the entries of [b] win. *)
Definition dict_merge (a b : gmap string value) : gmap string value := b ∪ a.

(** [d.setdefault(k, v)], as the resulting dictionary *)
Definition setdefault (k : string) (v : value) (d : gmap string value)
  : gmap string value :=
  match d !! k with Some _ => d | None => <[k := v]> d end.

(** [d.pop(k, dflt)]: the popped value and the remaining dictionary *)
Definition pop (k : string) (dflt : value) (d : gmap string value)
  : value * gmap string value :=
  (default dflt (d !! k), delete k d).

End Py.
Export Py.

(** ** The outside world, the state and the monad *)

Inductive provider : Type :=
  | AzureChatOpenAI | ChatDashscope | ChatDeepSeek | ChatOpenAI.

(** A constructed chat-model client. [inst_id] is the identity of the
    object: two instances are the same object iff they have the same id. *)
Record instance : Type := mkInstance {
  inst_id : nat;
  inst_class : provider;
  inst_kwargs : gmap string value
}.

Inductive event : Type :=
  | EvHttpGet (url : string)                                (* httpx.get(url, timeout=1.0) *)
  | EvConstruct (cls : provider) (kwargs : gmap string value) (* cls( **kwargs ) *)
  | EvPrint (text : list fragment) (e : exn).               (* print(f"{text}{e}") *)

Inductive http_outcome : Type :=
  | Responds (status_code : Z)
  | Fails (e : exn).

Record world : Type := mkWorld {
  (** [os.environ.items()], in iteration order *)
  environ : list (string * string);
  (** what [load_yaml_config(_get_config_file_path())] does: raise or return *)
  load_yaml_config : exn + value;
  (** what the [n]-th action of the process gets when it is [httpx.get(url)] *)
  httpx_get : nat → string → http_outcome;
  (** whether the external constructor [cls( **kwargs )] raises *)
  ctor_raises : provider → gmap string value → option exn
}.

Record state : Type := mkState {
  _llm_cache : gmap string instance;   (* the module-level cache *)
  next_id : nat;                       (* number of client objects built *)
  trace : list event
}.

Definition M (A : Type) : Type := state → (exn + A) * state.

Definition ret {A} (a : A) : M A := λ s, (inr a, s).

Definition bind {A B} (m : M A) (k : A → M B) : M B :=
  λ s, match m s with
       | (inr a, s') => k a s'
       | (inl e, s') => (inl e, s')
       end.

Definition raise {A} (e : exn) : M A := λ s, (inl e, s).

(** An operation that touches no state: it only returns or raises. *)
Definition lift {A} (r : exn + A) : M A := λ s, (r, s).

(** [try: m  except Exception as e: h e] *)
Definition try_except {A} (m : M A) (h : exn → M A) : M A :=
  λ s, match m s with
       | (inl e, s') => h e s'
       | (inr a, s') => (inr a, s')
       end.

Notation "x <- m ;; k" := (bind m (λ x, k))
  (at level 100, m at next level, right associativity).

Definition log (ev : event) (s : state) : state :=
  mkState (_llm_cache s) (next_id s) (trace s ++ [ev])%list.

(** [os.getenv(name)] *)
Definition getenv (w : world) (name : string) : option string :=
  snd <$> List.find (λ kv, String.eqb (fst kv) name) (environ w).

Definition truthy_env (o : option string) : bool :=
  match o with Some s => truthy (VStr s) | None => false end.

(** [httpx.get(url, timeout=1.0).status_code] *)
Definition http_get_status (w : world) (url : string) : M Z :=
  λ s, let s' := log (EvHttpGet url) s in
       match httpx_get w (List.length (trace s)) url with
       | Responds code => (inr code, s')
       | Fails e => (inl e, s')
       end.

(** [cls( **kwargs )]: the call is recorded; when the constructor accepts
    its arguments a fresh object is allocated. *)
Definition construct (w : world) (cls : provider) (kwargs : gmap string value)
  : M instance :=
  λ s, let s' := log (EvConstruct cls kwargs) s in
       match ctor_raises w cls kwargs with
       | Some e => (inl e, s')
       | None =>
           (inr (mkInstance (next_id s) cls kwargs),
            mkState (_llm_cache s') (S (next_id s')) (trace s'))
       end.

(** [print(f"{text}{e}")] *)
Definition print (text : list fragment) (e : exn) : M unit :=
  λ s, (inr tt, log (EvPrint text e) s).

(** ** The module *)

(** Modelled from the spec: [LLMType] is declared in [src/config/agents.py],
    which is not among the sources; the data model gives its members as
    reasoning | basic | vision | code.  This is [get_args(LLMType)]. *)
Definition LLMType_args : list string := ["reasoning"; "basic"; "vision"; "code"].

Definition _get_llm_type_config_keys : gmap string string :=
  <["code" := "CODE_MODEL"]>
  (<["vision" := "VISION_MODEL"]>
  (<["basic" := "BASIC_MODEL"]>
  (<["reasoning" := "REASONING_MODEL"]> ∅))).

(** One iteration of the loop of [_get_env_llm_conf]. *)
Definition env_step (prefix : string) (conf : gmap string value)
  (kv : string * string) : gmap string value :=
  let '(key, val) := kv in
  if startswith key prefix
  then <[lower (slice_from (String.length prefix) key) := VStr val]> conf
  else conf.

Definition _get_env_llm_conf (w : world) (llm_type : string)
  : gmap string value :=
  let prefix := upper llm_type +:+ "_MODEL__" in
  fold_left (env_step prefix) (environ w) ∅.

(** *** LM Studio detection *)

Definition fixed_candidate_hosts : list string :=
  ["http://localhost:1234"; "http://127.0.0.1:1234"; "http://192.168.2.65:1234"].

(** [candidate_hosts] after the optional [insert(0, ...)]. *)
Definition candidate_hosts (w : world) : list string :=
  match getenv w "LMSTUDIO_LAN_HOST" with
  | Some lan_host =>
      if truthy (VStr lan_host)
      then ("http://" +:+ lan_host +:+ ":1234") :: fixed_candidate_hosts
      else fixed_candidate_hosts
  | None => fixed_candidate_hosts
  end.

(** The body of the [for] loop: [Some v] when it executes [return v],
    [None] when it goes on to the next host ([continue] or falling through). *)
Definition probe_host (w : world) (host : string) : M (option value) :=
  try_except
    (status_code <- http_get_status w (host +:+ "/v1/models");;
     if (status_code =? 200)%Z then ret (Some (VStr (host +:+ "/v1")))
     else ret None)
    (λ _, ret None).

Fixpoint probe_hosts (w : world) (hosts : list string) : M value :=
  match hosts with
  | [] => ret VNone
  | host :: rest =>
      r <- probe_host w host;;
      match r with
      | Some v => ret v
      | None => probe_hosts w rest
      end
  end.

Definition _detect_lmstudio_base_url (w : world) : M value :=
  probe_hosts w (candidate_hosts w).

(** *** Building a client from the configuration *)

(** [d.get(k, dflt)] on a value that is meant to be a dict *)
Definition py_get (d : value) (k : string) (dflt : value) : exn + value :=
  match d with
  | VDict m => inr (default dflt (m !! k))
  | _ => inl (AttributeError [Lit "object has no attribute 'get'"])
  end.

(** [needle in v] for a string [needle] *)
Definition py_in (needle : string) (v : value) : exn + bool :=
  match v with
  | VStr s => inr (str_contains needle s)
  | VList l => inr (existsb (is_str needle) l)
  | VDict m => inr (bool_decide (is_Some (m !! needle)))
  | _ => inl (TypeError [Lit "argument is not iterable"])
  end.

Definition lmstudio_conf (lmstudio_base : value) : gmap string value :=
  <["streaming" := VBool true]>
  (<["api_key" := VStr "lm-studio"]>
  (<["api_base" := lmstudio_base]> ∅)).

Definition unknown_type_msg (llm_type : string) : list fragment :=
  [Lit "Unknown LLM type: "; Fmt (VStr llm_type)].

Definition invalid_conf_msg (llm_type : string) (llm_conf : value) : list fragment :=
  [Lit "Invalid LLM configuration for "; Fmt (VStr llm_type); Lit ": "; Fmt llm_conf].

Definition no_conf_msg (llm_type : string) : list fragment :=
  [Lit "No configuration found for LLM type: "; Fmt (VStr llm_type);
   Lit " and LM Studio not detected"].

(** Lines 93-121 of [_create_llm_use_conf]: the value of [merged_conf]
    when line 123 is reached. *)
Definition resolve_merged_conf (w : world) (llm_type : string) (conf : value)
  : M (gmap string value) :=
  let llm_type_config_keys := _get_llm_type_config_keys in
  match llm_type_config_keys !! llm_type with
  | None => raise (ValueError (unknown_type_msg llm_type))
  | Some config_key =>
      if negb (truthy (VStr config_key))
      then raise (ValueError (unknown_type_msg llm_type))
      else
        llm_conf <- lift (py_get conf config_key (VDict ∅));;
        match llm_conf with
        | VDict llm_conf =>
            let env_conf := _get_env_llm_conf w llm_type in
            let merged_conf := dict_merge llm_conf env_conf in
            if negb (truthy (VDict merged_conf)) then
              lmstudio_base <- _detect_lmstudio_base_url w;;
              if truthy lmstudio_base then ret (lmstudio_conf lmstudio_base)
              else raise (ValueError (no_conf_msg llm_type))
            else ret merged_conf
        | _ => raise (ValueError (invalid_conf_msg llm_type llm_conf))
        end
  end.

(** Lines 123-125. *)
Definition add_max_retries (merged_conf : gmap string value) : gmap string value :=
  match merged_conf !! "max_retries" with
  | Some _ => merged_conf
  | None => <["max_retries" := VInt 3]> merged_conf
  end.

(** Lines 127-135. *)
Definition handle_verify_ssl (merged_conf : gmap string value) : gmap string value :=
  let '(verify_ssl, merged_conf) := pop "verify_ssl" (VBool true) merged_conf in
  if negb (truthy verify_ssl) then
    let http_client := VHttpClient false in
    let http_async_client := VHttpAsyncClient false in
    <["http_async_client" := http_async_client]>
    (<["http_client" := http_client]> merged_conf)
  else merged_conf.

(** The test of line 137. *)
Definition azure_selected (w : world) (merged_conf : gmap string value) : bool :=
  bool_decide (is_Some (merged_conf !! "azure_endpoint"))
  || truthy_env (getenv w "AZURE_OPENAI_ENDPOINT").

(** The test of line 141. *)
Definition is_dashscope (merged_conf : gmap string value) : exn + bool :=
  match merged_conf !! "base_url" with
  | None => inr false
  | Some base_url => py_in "dashscope." base_url
  end.

(** Lines 137-165. *)
Definition dispatch_provider (w : world) (llm_type : string)
  (merged_conf : gmap string value) : M instance :=
  if azure_selected w merged_conf then construct w AzureChatOpenAI merged_conf
  else
    dashscope <- lift (is_dashscope merged_conf);;
    if dashscope then
      let extra_body :=
        if String.eqb llm_type "reasoning"
        then VDict {[ "enable_thinking" := VBool true ]}
        else VDict {[ "enable_thinking" := VBool false ]} in
      construct w ChatDashscope (<["extra_body" := extra_body]> merged_conf)
    else if String.eqb llm_type "reasoning" then
      let '(base_url, merged_conf) := pop "base_url" VNone merged_conf in
      construct w ChatDeepSeek (<["api_base" := base_url]> merged_conf)
    else
      let base_url := default VNone (merged_conf !! "base_url") in
      lmstudio_base <-
        (if truthy base_url then ret base_url else _detect_lmstudio_base_url w);;
      let merged_conf :=
        if truthy lmstudio_base then
          setdefault "streaming" (VBool true)
            (setdefault "api_key" (VStr "lm-studio")
               (<["api_base" := lmstudio_base]> merged_conf))
        else merged_conf in
      construct w ChatOpenAI merged_conf.

Definition _create_llm_use_conf (w : world) (llm_type : string) (conf : value)
  : M instance :=
  merged_conf <- resolve_merged_conf w llm_type conf;;
  dispatch_provider w llm_type (handle_verify_ssl (add_max_retries merged_conf)).

(** *** The cached entry point *)

Definition cache_store (llm_type : string) (llm : instance) : M unit :=
  λ s, (inr tt, mkState (<[llm_type := llm]> (_llm_cache s)) (next_id s) (trace s)).

Definition get_llm_by_type (w : world) (llm_type : string) : M instance :=
  λ s, match _llm_cache s !! llm_type with
       | Some llm => (inr llm, s)
       | None =>
           (conf <- lift (load_yaml_config w);;
            llm <- _create_llm_use_conf w llm_type conf;;
            _ <- cache_store llm_type llm;;
            ret llm) s
       end.

(** *** The report of configured models *)

(** [{**yaml_conf, **env_conf}] when [yaml_conf] is any value *)
Definition py_merge (yaml_conf : value) (env_conf : gmap string value)
  : exn + gmap string value :=
  match yaml_conf with
  | VDict m => inr (dict_merge m env_conf)
  | _ => inl (TypeError [Lit "object is not a mapping"])
  end.

(** One iteration of the loop of [get_configured_llm_models]. *)
Definition models_step (w : world) (conf : value)
  (configured_models : gmap string (list value)) (llm_type : string)
  : M (gmap string (list value)) :=
  let llm_type_config_keys := _get_llm_type_config_keys in
  let config_key := default "" (llm_type_config_keys !! llm_type) in
  yaml_conf <-
    lift (if truthy (VStr config_key) then py_get conf config_key (VDict ∅)
          else inr (VDict ∅));;
  let env_conf := _get_env_llm_conf w llm_type in
  merged_conf <- lift (py_merge yaml_conf env_conf);;
  let model_name := default VNone (merged_conf !! "model") in
  if truthy model_name then
    ret (<[llm_type := (default [] (configured_models !! llm_type) ++ [model_name])%list]>
           configured_models)
  else ret configured_models.

Fixpoint models_loop (w : world) (conf : value)
  (configured_models : gmap string (list value)) (types : list string)
  : M (gmap string (list value)) :=
  match types with
  | [] => ret configured_models
  | llm_type :: rest =>
      configured_models <- models_step w conf configured_models llm_type;;
      models_loop w conf configured_models rest
  end.

Definition warning_text : list fragment :=
  [Lit "Warning: Failed to load LLM configuration: "].

(** The body of the [try] block. *)
Definition configured_models_body (w : world) : M (gmap string (list value)) :=
  conf <- lift (load_yaml_config w);;
  models_loop w conf ∅ LLMType_args.

Definition get_configured_llm_models (w : world) : M (gmap string (list value)) :=
  try_except (configured_models_body w)
    (λ e, _ <- print warning_text e;; ret ∅).

(** ** Running a process: a sequence of calls of the public functions *)

Inductive call : Type :=
  | CallGetLLM (llm_type : string)
  | CallConfiguredModels.

Definition run_call (wc : world * call) (s : state) : state :=
  match snd wc with
  | CallGetLLM llm_type => snd (get_llm_by_type (fst wc) llm_type s)
  | CallConfiguredModels => snd (get_configured_llm_models (fst wc) s)
  end.

(** How many client objects the calls for role [r] build, when the calls
    are run in order from state [s]. *)
Fixpoint constructed_for (r : string) (calls : list (world * call)) (s : state) : nat :=
  match calls with
  | [] => 0
  | wc :: rest =>
      let s' := run_call wc s in
      (match snd wc with
       | CallGetLLM llm_type =>
           if String.eqb llm_type r then next_id s' - next_id s else 0
       | CallConfiguredModels => 0
       end) + constructed_for r rest s'
  end.

Definition init_state : state := mkState ∅ 0 [].

(** The events a computation adds to the trace when run from [s]. *)
Definition events_of {A} (m : M A) (s : state) : list event :=
  drop (List.length (trace s)) (trace (snd (m s))).

(** * Vocabulary of the properties

    Predicates on computations, the read-outs the statements use, and the
    concrete configurations, environments and networks at which the
    theorems are instantiated. *)

(** What [httpx.get] raises when nothing listens. *)
Definition connect_error : exn := mkExn "ConnectError" [].

(** YAML [BASIC_MODEL: {api_key: "a"}]. *)
Definition yaml_example : value :=
  VDict {[ "BASIC_MODEL" := VDict {[ "api_key" := VStr "a" ]} ]}.

(** [yaml_example] with the environment [BASIC_MODEL__api_key=b] and no
    LM Studio server. *)
Definition env_example : world :=
  mkWorld [("BASIC_MODEL__api_key", "b")] (inr yaml_example)
          (λ _ _, Fails connect_error) (λ _ _, None).

Definition is_http_get (ev : event) : Prop :=
  match ev with EvHttpGet _ => True | _ => False end.

(** [probing m]: [m] leaves the cache and the allocation counter alone and
    adds nothing but HTTP requests to the trace. *)
Definition probing {A} (m : M A) : Prop :=
  ∀ s, _llm_cache (snd (m s)) = _llm_cache s
       ∧ next_id (snd (m s)) = next_id s
       ∧ ∃ evs, trace (snd (m s)) = (trace s ++ evs)%list ∧ Forall is_http_get evs.

(** Whether [host] answers [GET host/v1/models] with status 200 when it is
    asked as the [clock]-th action of the process. *)
Definition answers_200 (w : world) (clock : nat) (host : string) : bool :=
  match httpx_get w clock (host +:+ "/v1/models") with
  | Responds status_code => (status_code =? 200)%Z
  | Fails _ => false
  end.

Definition probe_event (host : string) : event := EvHttpGet (host +:+ "/v1/models").

(** A base URL on the local machine. *)
Definition is_loopback (host : string) : bool :=
  startswith host "http://localhost:"
  || startswith host "http://127."
  || startswith host "http://[::1]:".

(** No environment, an empty YAML configuration, and a network on which
    only 192.168.2.65 answers. *)
Definition lan_only_world : world :=
  mkWorld [] (inr (VDict ∅))
    (λ _ url, if String.eqb url "http://192.168.2.65:1234/v1/models"
              then Responds 200 else Fails connect_error)
    (λ _ _, None).

(** The keyword arguments of the reasoning branch. *)
Definition reasoning_kwargs (merged_conf : gmap string value) : gmap string value :=
  let m := handle_verify_ssl (add_max_retries merged_conf) in
  <["api_base" := default VNone (m !! "base_url")]> (delete "base_url" m).

(** [growing m]: [m] only appends to the trace. *)
Definition growing {A} (m : M A) : Prop :=
  ∀ s, ∃ evs, trace (snd (m s)) = (trace s ++ evs)%list.

(** No environment and no LM Studio server anywhere. *)
Definition no_server_world : world :=
  mkWorld [] (inr (VDict ∅)) (λ _ _, Fails connect_error) (λ _ _, None).

(** The model name of a merged configuration, as the report lists it. *)
Definition listed_models (merged_conf : gmap string value) : option (list value) :=
  let model_name := default VNone (merged_conf !! "model") in
  if truthy model_name then Some [model_name] else None.

(** [allocating m]: [m] leaves the cache alone and builds exactly one client
    object when it returns, none when it raises. *)
Definition allocating (m : M instance) : Prop :=
  ∀ s, _llm_cache (snd (m s)) = _llm_cache s
       ∧ match fst (m s) with
         | inr llm => next_id (snd (m s)) = S (next_id s) ∧ inst_id llm = next_id s
         | inl _ => next_id (snd (m s)) = next_id s
         end.

(** The option key an environment variable [name] gives under [prefix]. *)
Definition env_key (prefix name : string) : string :=
  lower (slice_from (String.length prefix) name).

(** What the reasoning client gets on the fallback:
    [{api_base: None, api_key: "lm-studio", streaming: True, max_retries: 3}]. *)
Definition fallback_reasoning_kwargs : gmap string value :=
  <["api_base" := VNone]>
  (<["max_retries" := VInt 3]>
  (<["streaming" := VBool true]>
  (<["api_key" := VStr "lm-studio"]> ∅))).

(** After the first call for role basic in [env_example]. *)
Definition cached_state : state :=
  Eval vm_compute in snd (get_llm_by_type env_example "basic" init_state).

Definition cached_llm : instance :=
  Eval vm_compute in
    match fst (get_llm_by_type env_example "basic" init_state) with
    | inr llm => llm
    | inl _ => mkInstance 0 ChatOpenAI ∅
    end.

Definition dashscope_section : gmap string value :=
  {[ "base_url" := VStr "https://dashscope.example/v1" ]}.

Definition dashscope_yaml : gmap string value :=
  <["BASIC_MODEL" := VDict dashscope_section]>
  {[ "REASONING_MODEL" := VDict dashscope_section ]}.

Definition reasoning_section : gmap string value :=
  {[ "base_url" := VStr "https://api.example.com" ]}.

Definition reasoning_yaml : gmap string value :=
  {[ "REASONING_MODEL" := VDict reasoning_section ]}.

Definition model_only_section : gmap string value :=
  {[ "model" := VStr "deepseek-reasoner" ]}.

Definition model_only_yaml : gmap string value :=
  {[ "REASONING_MODEL" := VDict model_only_section ]}.

Definition insecure_section : gmap string value :=
  <["verify_ssl" := VBool false]> {[ "model" := VStr "gpt-4o" ]}.

Definition insecure_yaml : gmap string value :=
  {[ "BASIC_MODEL" := VDict insecure_section ]}.

Definition local_section : gmap string value :=
  <["model" := VStr "qwen"]> {[ "base_url" := VStr "http://localhost:8000/v1" ]}.

Definition local_yaml : gmap string value :=
  {[ "BASIC_MODEL" := VDict local_section ]}.

Definition lan_probed_state : state :=
  Eval vm_compute in snd (_detect_lmstudio_base_url lan_only_world init_state).

(** What the generic client gets on the fallback, with [base] as its base
    URL: [{api_base: base, api_key: "lm-studio", streaming: True,
    max_retries: 3}]. *)
Definition fallback_openai_kwargs (base : value) : gmap string value :=
  <["max_retries" := VInt 3]> (lmstudio_conf base).

(** The keyword arguments of the default branch once a base URL is known. *)
Definition with_local_base (base : value) (m : gmap string value)
  : gmap string value :=
  setdefault "streaming" (VBool true)
    (setdefault "api_key" (VStr "lm-studio") (<["api_base" := base]> m)).

(** A network on which localhost answers the very first request of the
    process and nothing answers afterwards. *)
Definition flaky_world : world :=
  mkWorld [] (inr (VDict ∅))
    (λ clock url, if Nat.eqb clock 0 then Responds 200 else Fails connect_error)
    (λ _ _, None).

Definition flaky_probed_state : state :=
  Eval vm_compute in snd (_detect_lmstudio_base_url flaky_world init_state).

Definition flaky_final_state : state :=
  Eval vm_compute in snd (_detect_lmstudio_base_url flaky_world flaky_probed_state).

(** YAML [BASIC_MODEL: {model: "gpt-4o", api_base: "https://api.openai.com/v1"}]. *)
Definition cloud_section : gmap string value :=
  <["api_base" := VStr "https://api.openai.com/v1"]> {[ "model" := VStr "gpt-4o" ]}.

Definition cloud_yaml : gmap string value :=
  {[ "BASIC_MODEL" := VDict cloud_section ]}.

(** [cloud_yaml] with a server on 192.168.2.65. *)
Definition cloud_lan_world : world :=
  mkWorld [] (inr (VDict cloud_yaml))
    (λ _ url, if String.eqb url "http://192.168.2.65:1234/v1/models"
              then Responds 200 else Fails connect_error)
    (λ _ _, None).

(** [AZURE_OPENAI_ENDPOINT] set, over the dashscope configuration. *)
Definition azure_env_world : world :=
  mkWorld [("AZURE_OPENAI_ENDPOINT", "https://example.openai.azure.com")]
    (inr (VDict dashscope_yaml)) (λ _ _, Fails connect_error) (λ _ _, None).

(** YAML [BASIC_MODEL: {model: "gpt-4o", base_url: null}]. *)
Definition null_url_section : gmap string value :=
  <["base_url" := VNone]> {[ "model" := VStr "gpt-4o" ]}.

Definition null_url_yaml : gmap string value :=
  {[ "BASIC_MODEL" := VDict null_url_section ]}.

(** [insecure_yaml] (which has [verify_ssl: false]) under the environment
    [BASIC_MODEL__verify_ssl=false]. *)
Definition ssl_env_world : world :=
  mkWorld [("BASIC_MODEL__verify_ssl", "false")] (inr (VDict insecure_yaml))
    (λ _ _, Fails connect_error) (λ _ _, None).

(** The state after the calls of a process, run in order from [s]. *)
Definition run_calls (calls : list (world * call)) (s : state) : state :=
  fold_left (λ s wc, run_call wc s) calls s.

(** What holds of every entry of the cache: its key is a role, its object
    was allocated before, the constructor call that built it is on the
    trace, and no other key holds an object with the same identity. *)
Definition cache_inv (s : state) : Prop :=
  ∀ r llm, _llm_cache s !! r = Some llm →
    r ∈ LLMType_args
    ∧ (inst_id llm < next_id s)%nat
    ∧ EvConstruct (inst_class llm) (inst_kwargs llm) ∈ trace s
    ∧ ∀ r' llm', _llm_cache s !! r' = Some llm' →
                 inst_id llm' = inst_id llm → r' = r.

(** [recorded m]: the client [m] returns was built by a constructor call
    that is on the trace. *)
Definition recorded (m : M instance) : Prop :=
  ∀ s llm s', m s = (inr llm, s') →
    EvConstruct (inst_class llm) (inst_kwargs llm) ∈ trace s'.

(** [sends_at_most n m]: [m] adds at most [n] HTTP requests to the trace
    and nothing else. *)
Definition sends_at_most (n : nat) {A} (m : M A) : Prop :=
  ∀ s, ∃ gets,
    trace (snd (m s)) = (trace s ++ gets)%list
    ∧ Forall is_http_get gets ∧ (List.length gets ≤ n)%nat.

(** [effects_within n m]: [m] adds at most [n] HTTP requests to the trace,
    followed by at most one constructor call. *)
Definition effects_within (n : nat) (m : M instance) : Prop :=
  ∀ s, ∃ gets tail,
    trace (snd (m s)) = (trace s ++ gets ++ tail)%list
    ∧ Forall is_http_get gets ∧ (List.length gets ≤ n)%nat
    ∧ (tail = [] ∨ ∃ cls kwargs, tail = [EvConstruct cls kwargs]).

(** Two calls for different roles and a report in between, with the
    dashscope configuration. *)
Definition two_roles_world : world :=
  mkWorld [] (inr (VDict dashscope_yaml)) (λ _ _, Fails connect_error) (λ _ _, None).

Definition two_roles_calls : list (world * call) :=
  [(two_roles_world, CallGetLLM "basic");
   (two_roles_world, CallConfiguredModels);
   (two_roles_world, CallGetLLM "reasoning")].

Definition two_roles_state : state :=
  Eval vm_compute in run_calls two_roles_calls init_state.

Definition two_roles_basic : instance :=
  Eval vm_compute in
    default (mkInstance 0 ChatOpenAI ∅) (_llm_cache two_roles_state !! "basic").

Definition two_roles_reasoning : instance :=
  Eval vm_compute in
    default (mkInstance 0 ChatOpenAI ∅) (_llm_cache two_roles_state !! "reasoning").

(** A world whose configuration file cannot be loaded. *)
Definition broken_yaml_world : world :=
  mkWorld [] (inl (mkExn "YAMLError" [])) (λ _ _, Fails connect_error) (λ _ _, None).

(** YAML [BASIC_MODEL: {model: "gpt-4o"}] with the environment
    [BASIC_MODEL__MODEL=qwen] and no server. *)
Definition model_env_world : world :=
  mkWorld [("PATH", "/usr/bin"); ("BASIC_MODEL__MODEL", "qwen")]
    (inr (VDict {[ "BASIC_MODEL" := VDict {[ "model" := VStr "gpt-4o" ]} ]}))
    (λ _ _, Fails connect_error) (λ _ _, None).

(** What the factory passes to [ChatOpenAI] in [ssl_env_world]. *)
Definition ssl_env_kwargs : gmap string value :=
  handle_verify_ssl
    (add_max_retries
       (dict_merge insecure_section (_get_env_llm_conf ssl_env_world "basic"))).

(** What the factory passes to [ChatOpenAI] in [model_env_world]. *)
Definition model_env_kwargs : gmap string value :=
  handle_verify_ssl
    (add_max_retries
       (dict_merge {[ "model" := VStr "gpt-4o" ]}
                   (_get_env_llm_conf model_env_world "basic"))).

(** A string of ASCII characters only.  On such a string Python's
    [str.lower] and [str.upper] are the byte maps [lower] and [upper]. *)
Fixpoint is_ascii (s : string) : bool :=
  match s with
  | EmptyString => true
  | String c s' => Nat.ltb (nat_of_ascii c) 128 && is_ascii s'
  end.

(** * Properties *)

(** ** Dictionaries and the configuration stages *)

Lemma dict_merge_lookup (a b : gmap string value) (k : string) :
  dict_merge a b !! k = match b !! k with Some v => Some v | None => a !! k end.
Proof.
  unfold dict_merge. rewrite lookup_union.
  destruct (b !! k), (a !! k); reflexivity.
Qed.

Lemma truthy_dict (m : gmap string value) :
  truthy (VDict m) = false ↔ m = ∅.
Proof.
  simpl. destruct (bool_decide_reflect (m = ∅)); simpl; split; congruence.
Qed.

Lemma add_max_retries_lookup (m : gmap string value) (k : string) :
  k ≠ "max_retries" → add_max_retries m !! k = m !! k.
Proof.
  intros Hk. unfold add_max_retries.
  destruct (m !! "max_retries"); [reflexivity |].
  by rewrite lookup_insert_ne.
Qed.

Lemma handle_verify_ssl_removed (m : gmap string value) :
  handle_verify_ssl m !! "verify_ssl" = None.
Proof.
  unfold handle_verify_ssl, pop.
  destruct (negb _); [rewrite !lookup_insert_ne by done |];
    apply lookup_delete_eq.
Qed.

Lemma handle_verify_ssl_lookup (m : gmap string value) (k : string) :
  k ≠ "verify_ssl" → k ≠ "http_client" → k ≠ "http_async_client" →
  handle_verify_ssl m !! k = m !! k.
Proof.
  intros H1 H2 H3. unfold handle_verify_ssl, pop.
  destruct (negb _); [rewrite !lookup_insert_ne by done |];
    by rewrite lookup_delete_ne.
Qed.

(** Keys that neither [add_max_retries] nor [handle_verify_ssl] touches. *)
Lemma stages_lookup (m : gmap string value) (k : string) :
  k ≠ "max_retries" → k ≠ "verify_ssl" →
  k ≠ "http_client" → k ≠ "http_async_client" →
  handle_verify_ssl (add_max_retries m) !! k = m !! k.
Proof.
  intros. rewrite handle_verify_ssl_lookup by done.
  by apply add_max_retries_lookup.
Qed.

Lemma azure_selected_stages (w : world) (m : gmap string value) :
  azure_selected w (handle_verify_ssl (add_max_retries m)) = azure_selected w m.
Proof. unfold azure_selected. by rewrite stages_lookup. Qed.

Lemma is_dashscope_stages (m : gmap string value) :
  is_dashscope (handle_verify_ssl (add_max_retries m)) = is_dashscope m.
Proof. unfold is_dashscope. by rewrite stages_lookup. Qed.

(** The roles of the key table are exactly the members of [LLMType]. *)
Lemma config_key_known (llm_type : string) :
  llm_type ∈ LLMType_args ↔ is_Some (_get_llm_type_config_keys !! llm_type).
Proof.
  unfold LLMType_args, _get_llm_type_config_keys. split.
  - rewrite !elem_of_cons, elem_of_nil.
    intros [-> | [-> | [-> | [-> | []]]]]; vm_compute; eauto.
  - intros [key Hkey].
    rewrite !elem_of_cons.
    destruct (decide (llm_type = "code")) as [-> | ?]; [tauto |].
    destruct (decide (llm_type = "vision")) as [-> | ?]; [tauto |].
    destruct (decide (llm_type = "basic")) as [-> | ?]; [tauto |].
    destruct (decide (llm_type = "reasoning")) as [-> | ?]; [tauto |].
    rewrite !lookup_insert_ne, lookup_empty in Hkey by done. discriminate.
Qed.

Lemma config_key_truthy (llm_type config_key : string) :
  _get_llm_type_config_keys !! llm_type = Some config_key →
  truthy (VStr config_key) = true.
Proof.
  unfold _get_llm_type_config_keys. intros H.
  destruct (decide (llm_type = "code")) as [-> | ?];
    [rewrite lookup_insert_eq in H; by inversion H |].
  rewrite lookup_insert_ne in H by done.
  destruct (decide (llm_type = "vision")) as [-> | ?];
    [rewrite lookup_insert_eq in H; by inversion H |].
  rewrite lookup_insert_ne in H by done.
  destruct (decide (llm_type = "basic")) as [-> | ?];
    [rewrite lookup_insert_eq in H; by inversion H |].
  rewrite lookup_insert_ne in H by done.
  destruct (decide (llm_type = "reasoning")) as [-> | ?];
    [rewrite lookup_insert_eq in H; by inversion H |].
  rewrite lookup_insert_ne, lookup_empty in H by done. discriminate.
Qed.

(** With a role of the table, a mapping (or nothing) under its key and a
    merged configuration that is not empty, lines 93-121 return the merged
    configuration and do nothing else. *)
Lemma resolve_merged_conf_nonempty (w : world) (llm_type config_key : string)
  (conf llm_conf : gmap string value) (s : state) :
  _get_llm_type_config_keys !! llm_type = Some config_key →
  default (VDict ∅) (conf !! config_key) = VDict llm_conf →
  dict_merge llm_conf (_get_env_llm_conf w llm_type) ≠ ∅ →
  resolve_merged_conf w llm_type (VDict conf) s =
    (inr (dict_merge llm_conf (_get_env_llm_conf w llm_type)), s).
Proof.
  intros Hkey Hconf Hne.
  unfold resolve_merged_conf. rewrite Hkey.
  rewrite (config_key_truthy _ _ Hkey). simpl.
  unfold bind, lift, py_get. rewrite Hconf.
  destruct (bool_decide_reflect
              (dict_merge llm_conf (_get_env_llm_conf w llm_type) = ∅));
    [contradiction | reflexivity].
Qed.

(** ** Environment precedence *)

(** C2. The merged configuration [{**llm_conf, **env_conf}] has, at every
    key, the value of the environment overrides when they define the key and
    the value of the YAML sub-mapping otherwise (so a key of both sides gets
    the environment value and a key of one side keeps its value); this merged
    configuration is what the resolution goes on with when it is not empty.
    With YAML [{api_key: "a"}] under [BASIC_MODEL] and the environment
    variable [BASIC_MODEL__api_key=b], the resolution for role basic yields a
    configuration whose [api_key] is ["b"]. *)
Theorem env_precedence_in_merge :
  (∀ (w : world) (llm_type : string) (llm_conf : gmap string value) (k : string),
     dict_merge llm_conf (_get_env_llm_conf w llm_type) !! k =
       match _get_env_llm_conf w llm_type !! k with
       | Some v => Some v
       | None => llm_conf !! k
       end)
  ∧ (∀ (w : world) (llm_type config_key : string)
       (conf llm_conf : gmap string value) (s : state),
       _get_llm_type_config_keys !! llm_type = Some config_key →
       default (VDict ∅) (conf !! config_key) = VDict llm_conf →
       dict_merge llm_conf (_get_env_llm_conf w llm_type) ≠ ∅ →
       resolve_merged_conf w llm_type (VDict conf) s =
         (inr (dict_merge llm_conf (_get_env_llm_conf w llm_type)), s))
  ∧ (∃ merged_conf,
       resolve_merged_conf env_example "basic" yaml_example init_state =
         (inr merged_conf, init_state)
       ∧ merged_conf !! "api_key" = Some (VStr "b")).
Proof.
  split; [| split].
  - intros. apply dict_merge_lookup.
  - intros. by apply resolve_merged_conf_nonempty with config_key.
  - eexists. split; [vm_compute; reflexivity | vm_compute; reflexivity].
Qed.

(** ** Computations that only probe the network *)

Lemma probing_ret {A} (a : A) : probing (ret a).
Proof. intros s. simpl. repeat split. exists []. by rewrite app_nil_r. Qed.

Lemma probing_raise {A} (e : exn) : probing (@raise A e).
Proof. intros s. simpl. repeat split. exists []. by rewrite app_nil_r. Qed.

Lemma probing_lift {A} (r : exn + A) : probing (lift r).
Proof. intros s. simpl. repeat split. exists []. by rewrite app_nil_r. Qed.

Lemma probing_bind {A B} (m : M A) (k : A → M B) :
  probing m → (∀ a, probing (k a)) → probing (bind m k).
Proof.
  intros Hm Hk s. unfold bind.
  destruct (Hm s) as (Hc & Hn & evs & Ht & Hg).
  destruct (m s) as [[e | a] s1]; simpl in *.
  - repeat split; eauto.
  - destruct (Hk a s1) as (Hc' & Hn' & evs' & Ht' & Hg').
    repeat split; [congruence | congruence |].
    exists (evs ++ evs')%list. split.
    + rewrite Ht', Ht. by rewrite app_assoc.
    + by apply Forall_app.
Qed.

Lemma probing_try_except {A} (m : M A) (h : exn → M A) :
  probing m → (∀ e, probing (h e)) → probing (try_except m h).
Proof.
  intros Hm Hh s. unfold try_except.
  destruct (Hm s) as (Hc & Hn & evs & Ht & Hg).
  destruct (m s) as [[e | a] s1]; simpl in *.
  - destruct (Hh e s1) as (Hc' & Hn' & evs' & Ht' & Hg').
    repeat split; [congruence | congruence |].
    exists (evs ++ evs')%list. split.
    + rewrite Ht', Ht. by rewrite app_assoc.
    + by apply Forall_app.
  - repeat split; eauto.
Qed.

Lemma probing_http_get (w : world) (url : string) :
  probing (http_get_status w url).
Proof.
  intros s. unfold http_get_status.
  destruct (httpx_get w _ url); simpl; repeat split;
    exists [EvHttpGet url]; split; try reflexivity;
    repeat constructor.
Qed.

Lemma probing_if {A} (b : bool) (m1 m2 : M A) :
  probing m1 → probing m2 → probing (if b then m1 else m2).
Proof. by destruct b. Qed.

Create HintDb probing.
#[local] Hint Resolve probing_ret probing_raise probing_lift probing_http_get
  probing_if : probing.

Ltac probing_step :=
  first [ apply probing_bind; [| intros ?]
        | apply probing_try_except; [| intros ?]
        | progress eauto with probing ].

Lemma probing_probe_host (w : world) (host : string) : probing (probe_host w host).
Proof. unfold probe_host. repeat probing_step. Qed.

Lemma probing_probe_hosts (w : world) (hosts : list string) :
  probing (probe_hosts w hosts).
Proof.
  induction hosts as [| host rest IH]; simpl; [apply probing_ret |].
  apply probing_bind; [apply probing_probe_host |].
  intros [v |]; [apply probing_ret | exact IH].
Qed.

Lemma probing_detect (w : world) : probing (_detect_lmstudio_base_url w).
Proof. apply probing_probe_hosts. Qed.

#[local] Hint Resolve probing_detect : probing.

Lemma probing_resolve (w : world) (llm_type : string) (conf : value) :
  probing (resolve_merged_conf w llm_type conf).
Proof.
  unfold resolve_merged_conf.
  destruct (_get_llm_type_config_keys !! llm_type); [| apply probing_raise].
  apply probing_if; [apply probing_raise |].
  apply probing_bind; [apply probing_lift |].
  intros llm_conf. destruct llm_conf; try apply probing_raise.
  apply probing_if; [| apply probing_ret].
  repeat probing_step.
Qed.

(** The events of a computation whose trace only grows. *)
Lemma events_of_app {A} (m : M A) (s : state) (evs : list event) :
  trace (snd (m s)) = (trace s ++ evs)%list → events_of m s = evs.
Proof. intros H. unfold events_of. rewrite H. apply drop_app_length. Qed.

Lemma events_of_ext {A} (m m' : M A) (s : state) :
  m s = m' s → events_of m s = events_of m' s.
Proof. intros H. unfold events_of. by rewrite H. Qed.

(** ** The endpoint prober *)

Lemma probe_host_eq (w : world) (host : string) (s : state) :
  probe_host w host s =
    (inr (if answers_200 w (List.length (trace s)) host
          then Some (VStr (host +:+ "/v1")) else None),
     log (probe_event host) s).
Proof.
  unfold probe_host, try_except, bind, http_get_status, answers_200, probe_event.
  destruct (httpx_get w _ _) as [code | e]; [| reflexivity].
  destruct (code =? 200)%Z; reflexivity.
Qed.

Lemma probe_hosts_spec (w : world) (hosts : list string) (s : state) :
  ∃ v s',
    probe_hosts w hosts s = (inr v, s')
    ∧ ((∃ i host,
          hosts !! i = Some host
          ∧ answers_200 w (List.length (trace s) + i) host = true
          ∧ (∀ j h, j < i → hosts !! j = Some h →
                    answers_200 w (List.length (trace s) + j) h = false)
          ∧ v = VStr (host +:+ "/v1")
          ∧ trace s' = (trace s ++ (probe_event <$> take (S i) hosts))%list)
       ∨ ((∀ j h, hosts !! j = Some h →
                  answers_200 w (List.length (trace s) + j) h = false)
          ∧ v = VNone
          ∧ trace s' = (trace s ++ (probe_event <$> hosts))%list)).
Proof.
  revert s. induction hosts as [| host rest IH]; intros s.
  - exists VNone, s. split; [reflexivity |]. right.
    split; [intros j h Hj; by rewrite lookup_nil in Hj |].
    split; [reflexivity | simpl; by rewrite app_nil_r].
  - simpl. unfold bind. rewrite probe_host_eq.
    destruct (answers_200 w (List.length (trace s)) host) eqn:Hans.
    + eexists _, _. split; [reflexivity |]. left.
      exists 0, host. rewrite Nat.add_0_r. repeat split; try done.
      intros j h Hj. lia.
    + destruct (IH (log (probe_event host) s)) as (v & s' & Hrun & Hcases).
      exists v, s'. split; [exact Hrun |].
      assert (Hlen : List.length (trace (log (probe_event host) s))
                     = S (List.length (trace s))).
      { simpl. rewrite length_app. simpl. lia. }
      rewrite Hlen in Hcases.
      destruct Hcases as [(i & h & Hi & Hyes & Hno & Hv & Ht) | (Hno & Hv & Ht)].
      * left. exists (S i), h. repeat split; try done.
        -- by rewrite Nat.add_succ_r.
        -- intros [| j] h' Hj Hh'; simpl in Hh'.
           ++ rewrite Nat.add_0_r. congruence.
           ++ rewrite Nat.add_succ_r. apply (Hno j h'); [lia | done].
        -- rewrite Ht. simpl. by rewrite <- app_assoc.
      * right. repeat split; try done.
        -- intros [| j] h' Hh'; simpl in Hh'.
           ++ rewrite Nat.add_0_r. congruence.
           ++ rewrite Nat.add_succ_r. by apply (Hno j h').
        -- rewrite Ht. simpl. by rewrite <- app_assoc.
Qed.

(** C4, as stated, fails: the fixed candidates are not all loopback
    addresses.  With [LMSTUDIO_LAN_HOST] unset the third candidate is the
    hard-coded LAN address 192.168.2.65, and when it is the one that answers,
    the prober returns a base URL on that address. *)
Lemma detect_candidates_not_all_loopback :
  getenv lan_only_world "LMSTUDIO_LAN_HOST" = None
  ∧ candidate_hosts lan_only_world !! 2 = Some "http://192.168.2.65:1234"
  ∧ is_loopback "http://192.168.2.65:1234" = false
  ∧ ¬ Forall (λ host, is_loopback host = true) (candidate_hosts lan_only_world)
  ∧ fst (_detect_lmstudio_base_url lan_only_world init_state)
    = inr (VStr "http://192.168.2.65:1234/v1").
Proof.
  repeat split; try reflexivity.
  intros H. rewrite Forall_forall in H.
  specialize (H "http://192.168.2.65:1234").
  assert (Hin : "http://192.168.2.65:1234" ∈ candidate_hosts lan_only_world)
    by (vm_compute; repeat constructor).
  apply H in Hin. vm_compute in Hin. discriminate.
Qed.

(** C4, amended.  [_detect_lmstudio_base_url] never raises and touches
    neither the cache nor the allocation counter.  Its candidates are, in
    order, [http://<LMSTUDIO_LAN_HOST>:1234] when that variable is set and
    not empty, then the three fixed hosts on port 1234: localhost and
    127.0.0.1 (loopback) and 192.168.2.65 (a LAN address).  It issues
    [GET <candidate>/v1/models] for the candidates in order; at the first
    candidate that answers with status 200 it returns [<candidate>/v1] and
    issues no further request; when no candidate answers 200 (an exception
    or another status) it has asked all of them and returns [None]. *)
Theorem detect_lmstudio_contract (w : world) (s : state) :
  let hosts := candidate_hosts w in
  let clock := List.length (trace s) in
  hosts = match getenv w "LMSTUDIO_LAN_HOST" with
          | Some lan_host =>
              if String.eqb lan_host "" then fixed_candidate_hosts
              else ("http://" +:+ lan_host +:+ ":1234") :: fixed_candidate_hosts
          | None => fixed_candidate_hosts
          end
  ∧ fixed_candidate_hosts =
      ["http://localhost:1234"; "http://127.0.0.1:1234"; "http://192.168.2.65:1234"]
  ∧ is_loopback <$> fixed_candidate_hosts = [true; true; false]
  ∧ ∃ v s',
      _detect_lmstudio_base_url w s = (inr v, s')
      ∧ _llm_cache s' = _llm_cache s
      ∧ next_id s' = next_id s
      ∧ ((∃ i host,
            hosts !! i = Some host
            ∧ answers_200 w (clock + i) host = true
            ∧ (∀ j h, j < i → hosts !! j = Some h →
                      answers_200 w (clock + j) h = false)
            ∧ v = VStr (host +:+ "/v1")
            ∧ trace s' = (trace s ++ (probe_event <$> take (S i) hosts))%list)
         ∨ ((∀ j h, hosts !! j = Some h → answers_200 w (clock + j) h = false)
            ∧ v = VNone
            ∧ trace s' = (trace s ++ (probe_event <$> hosts))%list)).
Proof.
  intros hosts clock. split; [| split; [| split]].
  - unfold hosts, candidate_hosts. destruct (getenv w _) as [lan |]; [| done].
    simpl. by destruct (String.eqb lan "").
  - reflexivity.
  - reflexivity.
  - destruct (probe_hosts_spec w hosts s) as (v & s' & Hrun & Hcases).
    exists v, s'. split; [exact Hrun |].
    destruct (probing_detect w s) as (Hc & Hn & _).
    unfold _detect_lmstudio_base_url in *. fold hosts in Hc, Hn.
    rewrite Hrun in Hc, Hn. simpl in Hc, Hn. auto.
Qed.

(** ** The fallback for an empty configuration *)

Lemma base_url_truthy (host : string) : truthy (VStr (host +:+ "/v1")) = true.
Proof. by destruct host. Qed.

Lemma lmstudio_conf_lookup (v : value) (k : string) :
  lmstudio_conf v !! k =
    if decide (k = "api_base") then Some v
    else if decide (k = "api_key") then Some (VStr "lm-studio")
    else if decide (k = "streaming") then Some (VBool true)
    else None.
Proof.
  unfold lmstudio_conf.
  repeat case_decide; subst; simplify_map_eq; reflexivity.
Qed.

Lemma candidate_hosts_cons (w : world) :
  ∃ host rest, candidate_hosts w = host :: rest.
Proof.
  unfold candidate_hosts. destruct (getenv w _) as [lan |]; [| by eexists _, _].
  destruct (truthy (VStr lan)); by eexists _, _.
Qed.

(** What the prober returns is [None] or a non-empty string, and it has
    sent at least one request. *)
Lemma detect_result (w : world) (s : state) :
  ∃ v s', _detect_lmstudio_base_url w s = (inr v, s')
          ∧ trace s' ≠ trace s
          ∧ (v = VNone ∨ ∃ url, v = VStr url ∧ truthy v = true).
Proof.
  destruct (probe_hosts_spec w (candidate_hosts w) s) as (v & s' & Hrun & Hcases).
  exists v, s'. split; [exact Hrun |].
  destruct (candidate_hosts_cons w) as (h & rest & Hne).
  destruct Hcases as [(i & host & _ & _ & _ & -> & Ht) | (_ & -> & Ht)];
    (split; [rewrite Ht, Hne; simpl; intros Heq;
             apply (f_equal List.length) in Heq;
             rewrite length_app in Heq; simpl in Heq; lia |]).
  - right. eexists. split; [reflexivity | apply base_url_truthy].
  - by left.
Qed.

(** Lines 109-121 when the merged configuration is empty. *)
Lemma resolve_merged_conf_empty (w : world) (llm_type config_key : string)
  (conf llm_conf : gmap string value) (s s' : state) (v : value) :
  _get_llm_type_config_keys !! llm_type = Some config_key →
  default (VDict ∅) (conf !! config_key) = VDict llm_conf →
  dict_merge llm_conf (_get_env_llm_conf w llm_type) = ∅ →
  _detect_lmstudio_base_url w s = (inr v, s') →
  resolve_merged_conf w llm_type (VDict conf) s =
    (if truthy v then inr (lmstudio_conf v)
     else inl (ValueError (no_conf_msg llm_type)), s').
Proof.
  intros Hkey Hconf Hempty Hrun.
  unfold resolve_merged_conf. rewrite Hkey, (config_key_truthy _ _ Hkey).
  cbn [negb]. unfold bind at 1, lift, py_get. rewrite Hconf.
  rewrite (proj2 (truthy_dict _) Hempty). cbn [negb].
  unfold bind. rewrite Hrun. by destruct (truthy v).
Qed.

(** C3. For a role of the fixed set whose merged configuration is empty
    (the YAML sub-mapping is absent or empty and there are no environment
    overrides), the resolution runs the endpoint prober.  When the prober
    returns a base URL, the configuration the resolution goes on with, before
    [max_retries] is added, is exactly
    [{api_base: url, api_key: "lm-studio", streaming: True}], and the client
    is built from it.  When the prober returns [None] the resolution raises
    the error whose message is "No configuration found for LLM type: <role>
    and LM Studio not detected" -- the failure the specification calls
    ConfigMissingError -- and no client is built. *)
Theorem empty_configuration_fallback
  (w : world) (llm_type config_key : string)
  (conf llm_conf : gmap string value) (s : state) :
  _get_llm_type_config_keys !! llm_type = Some config_key →
  default (VDict ∅) (conf !! config_key) = VDict llm_conf →
  dict_merge llm_conf (_get_env_llm_conf w llm_type) = ∅ →
  ∃ v s',
    _detect_lmstudio_base_url w s = (inr v, s')
    ∧ trace s' ≠ trace s
    ∧ (v = VNone ∨ ∃ url, v = VStr url)
    ∧ (∀ url, v = VStr url →
         resolve_merged_conf w llm_type (VDict conf) s
           = (inr (lmstudio_conf (VStr url)), s')
         ∧ (∀ k, lmstudio_conf (VStr url) !! k =
                   if decide (k = "api_base") then Some (VStr url)
                   else if decide (k = "api_key") then Some (VStr "lm-studio")
                   else if decide (k = "streaming") then Some (VBool true)
                   else None)
         ∧ _create_llm_use_conf w llm_type (VDict conf) s
           = dispatch_provider w llm_type
               (handle_verify_ssl (add_max_retries (lmstudio_conf (VStr url)))) s')
    ∧ (v = VNone →
         resolve_merged_conf w llm_type (VDict conf) s
           = (inl (ValueError (no_conf_msg llm_type)), s')
         ∧ In (Fmt (VStr llm_type)) (no_conf_msg llm_type)
         ∧ _create_llm_use_conf w llm_type (VDict conf) s
           = (inl (ValueError (no_conf_msg llm_type)), s')).
Proof.
  intros Hkey Hconf Hempty.
  destruct (detect_result w s) as (v & s' & Hrun & Htrace & Hv).
  exists v, s'.
  pose proof (resolve_merged_conf_empty _ _ _ _ _ _ _ _ Hkey Hconf Hempty Hrun)
    as Hres.
  split; [exact Hrun |]. split; [exact Htrace |].
  split; [destruct Hv as [-> | (url & -> & _)]; eauto |].
  split.
  - intros url ->. destruct Hv as [? | (url' & Heq & Htruthy)]; [done |].
    rewrite Htruthy in Hres. split; [exact Hres |].
    split; [intros k; apply lmstudio_conf_lookup |].
    unfold _create_llm_use_conf, bind. by rewrite Hres.
  - intros ->. simpl in Hres. split; [exact Hres |].
    split; [simpl; tauto |].
    unfold _create_llm_use_conf, bind. by rewrite Hres.
Qed.

(** ** Provider dispatch *)

Lemma create_nonempty (w : world) (llm_type config_key : string)
  (conf llm_conf : gmap string value) (s : state) :
  _get_llm_type_config_keys !! llm_type = Some config_key →
  default (VDict ∅) (conf !! config_key) = VDict llm_conf →
  dict_merge llm_conf (_get_env_llm_conf w llm_type) ≠ ∅ →
  _create_llm_use_conf w llm_type (VDict conf) s =
    dispatch_provider w llm_type
      (handle_verify_ssl
         (add_max_retries (dict_merge llm_conf (_get_env_llm_conf w llm_type)))) s.
Proof.
  intros Hkey Hconf Hne. unfold _create_llm_use_conf, bind.
  by rewrite (resolve_merged_conf_nonempty _ _ _ _ _ _ Hkey Hconf Hne).
Qed.

Lemma lookup_nonempty (m : gmap string value) (k : string) (v : value) :
  m !! k = Some v → m ≠ ∅.
Proof. intros H ->. by rewrite lookup_empty in H. Qed.

Lemma construct_trace (w : world) (cls : provider) (kwargs : gmap string value)
  (s : state) :
  trace (snd (construct w cls kwargs s)) = (trace s ++ [EvConstruct cls kwargs])%list.
Proof. unfold construct. by destruct (ctor_raises w cls kwargs). Qed.

Lemma construct_events (w : world) (cls : provider) (kwargs : gmap string value)
  (s : state) :
  events_of (construct w cls kwargs) s = [EvConstruct cls kwargs].
Proof. apply events_of_app, construct_trace. Qed.

Lemma dispatch_azure (w : world) (llm_type : string) (m : gmap string value) :
  azure_selected w m = true →
  dispatch_provider w llm_type m = construct w AzureChatOpenAI m.
Proof. intros H. unfold dispatch_provider. by rewrite H. Qed.

Lemma dispatch_dashscope (w : world) (llm_type : string) (m : gmap string value)
  (s : state) :
  azure_selected w m = false →
  is_dashscope m = inr true →
  dispatch_provider w llm_type m s =
    construct w ChatDashscope
      (<["extra_body" :=
           VDict {[ "enable_thinking" := VBool (String.eqb llm_type "reasoning") ]}]> m) s.
Proof.
  intros Ha Hd. unfold dispatch_provider, bind, lift. rewrite Ha, Hd.
  by destruct (String.eqb llm_type "reasoning").
Qed.

Lemma dispatch_reasoning (w : world) (m : gmap string value) (s : state) :
  azure_selected w m = false →
  is_dashscope m = inr false →
  dispatch_provider w "reasoning" m s =
    construct w ChatDeepSeek
      (<["api_base" := default VNone (m !! "base_url")]> (delete "base_url" m)) s.
Proof.
  intros Ha Hd. unfold dispatch_provider, bind, lift. by rewrite Ha, Hd.
Qed.

(** C5. Let the role be one of the fixed set and let its merged
    configuration be non-Azure, that is, the Azure test of the dispatch
    fails on it (it has no [azure_endpoint] key and [AZURE_OPENAI_ENDPOINT]
    is unset or empty).  When its [base_url] contains ["dashscope."], the
    factory calls the [ChatDashscope] constructor and nothing else, and the
    keyword arguments have [extra_body = {"enable_thinking": b}] where [b] is
    true exactly when the role is "reasoning". *)
Theorem dashscope_dispatch
  (w : world) (llm_type config_key : string)
  (conf llm_conf : gmap string value) (base_url : value) (s : state) :
  let merged_conf := dict_merge llm_conf (_get_env_llm_conf w llm_type) in
  _get_llm_type_config_keys !! llm_type = Some config_key →
  default (VDict ∅) (conf !! config_key) = VDict llm_conf →
  azure_selected w merged_conf = false →
  merged_conf !! "base_url" = Some base_url →
  py_in "dashscope." base_url = inr true →
  ∃ kwargs,
    _create_llm_use_conf w llm_type (VDict conf) s
      = construct w ChatDashscope kwargs s
    ∧ events_of (_create_llm_use_conf w llm_type (VDict conf)) s
      = [EvConstruct ChatDashscope kwargs]
    ∧ kwargs !! "extra_body"
      = Some (VDict {[ "enable_thinking" := VBool (String.eqb llm_type "reasoning") ]})
    ∧ (String.eqb llm_type "reasoning" = true ↔ llm_type = "reasoning").
Proof.
  intros merged_conf Hkey Hconf Hazure Hbase Hin.
  assert (Hne : merged_conf ≠ ∅) by (by eapply lookup_nonempty).
  eexists. split; [| split; [| split]].
  - rewrite (create_nonempty _ _ _ _ _ _ Hkey Hconf Hne).
    apply dispatch_dashscope.
    + by rewrite azure_selected_stages.
    + rewrite is_dashscope_stages. unfold is_dashscope.
      fold merged_conf. by rewrite Hbase.
  - unfold events_of.
    rewrite (create_nonempty _ _ _ _ _ _ Hkey Hconf Hne).
    rewrite dispatch_dashscope.
    + apply construct_events.
    + by rewrite azure_selected_stages.
    + rewrite is_dashscope_stages. unfold is_dashscope.
      fold merged_conf. by rewrite Hbase.
  - apply lookup_insert_eq.
  - apply String.eqb_eq.
Qed.

Lemma reasoning_key : _get_llm_type_config_keys !! "reasoning" = Some "REASONING_MODEL".
Proof. reflexivity. Qed.

Lemma reasoning_kwargs_lookup (merged_conf : gmap string value) :
  reasoning_kwargs merged_conf !! "api_base"
    = Some (default VNone (merged_conf !! "base_url"))
  ∧ reasoning_kwargs merged_conf !! "base_url" = None.
Proof.
  unfold reasoning_kwargs. split.
  - rewrite lookup_insert_eq. by rewrite stages_lookup.
  - rewrite lookup_insert_ne by done. apply lookup_delete_eq.
Qed.

Lemma create_reasoning (w : world) (conf llm_conf : gmap string value) (s : state) :
  let merged_conf := dict_merge llm_conf (_get_env_llm_conf w "reasoning") in
  default (VDict ∅) (conf !! "REASONING_MODEL") = VDict llm_conf →
  merged_conf ≠ ∅ →
  azure_selected w merged_conf = false →
  is_dashscope merged_conf = inr false →
  _create_llm_use_conf w "reasoning" (VDict conf) s
    = construct w ChatDeepSeek (reasoning_kwargs merged_conf) s.
Proof.
  intros merged_conf Hconf Hne Hazure Hdash.
  rewrite (create_nonempty _ _ _ _ _ _ reasoning_key Hconf Hne).
  apply dispatch_reasoning.
  - by rewrite azure_selected_stages.
  - by rewrite is_dashscope_stages.
Qed.

Lemma create_azure (w : world) (llm_type config_key : string)
  (conf llm_conf : gmap string value) (s : state) :
  let merged_conf := dict_merge llm_conf (_get_env_llm_conf w llm_type) in
  _get_llm_type_config_keys !! llm_type = Some config_key →
  default (VDict ∅) (conf !! config_key) = VDict llm_conf →
  merged_conf ≠ ∅ →
  azure_selected w merged_conf = true →
  _create_llm_use_conf w llm_type (VDict conf) s
    = construct w AzureChatOpenAI (handle_verify_ssl (add_max_retries merged_conf)) s.
Proof.
  intros merged_conf Hkey Hconf Hne Hazure.
  rewrite (create_nonempty _ _ _ _ _ _ Hkey Hconf Hne).
  rewrite dispatch_azure; [done |]. by rewrite azure_selected_stages.
Qed.

(** C6. For role "reasoning", let the merged configuration have no
    [azure_endpoint] key and a [base_url] that does not contain
    ["dashscope."].  Then whatever keyword arguments the factory passes to
    the reasoning client [ChatDeepSeek] have [api_base] equal to the original
    [base_url] value and no [base_url] key.  The factory does build that
    client, and nothing else, whenever the Azure selector
    [AZURE_OPENAI_ENDPOINT] is unset or empty (otherwise the Azure client is
    built and no reasoning client receives any options). *)
Theorem reasoning_renames_base_url
  (w : world) (conf llm_conf : gmap string value) (base_url : value) (s : state) :
  let merged_conf := dict_merge llm_conf (_get_env_llm_conf w "reasoning") in
  default (VDict ∅) (conf !! "REASONING_MODEL") = VDict llm_conf →
  merged_conf !! "azure_endpoint" = None →
  merged_conf !! "base_url" = Some base_url →
  py_in "dashscope." base_url = inr false →
  (∀ kwargs,
     EvConstruct ChatDeepSeek kwargs
       ∈ events_of (_create_llm_use_conf w "reasoning" (VDict conf)) s →
     kwargs !! "api_base" = Some base_url ∧ kwargs !! "base_url" = None)
  ∧ (truthy_env (getenv w "AZURE_OPENAI_ENDPOINT") = false →
     ∃ kwargs,
       _create_llm_use_conf w "reasoning" (VDict conf) s
         = construct w ChatDeepSeek kwargs s
       ∧ events_of (_create_llm_use_conf w "reasoning" (VDict conf)) s
         = [EvConstruct ChatDeepSeek kwargs]
       ∧ kwargs !! "api_base" = Some base_url
       ∧ kwargs !! "base_url" = None).
Proof.
  intros merged_conf Hconf Hnoazure Hbase Hin.
  assert (Hne : merged_conf ≠ ∅) by (by eapply lookup_nonempty).
  assert (Hdash : is_dashscope merged_conf = inr false)
    by (unfold is_dashscope; by rewrite Hbase).
  assert (Hsel : azure_selected w merged_conf
                 = truthy_env (getenv w "AZURE_OPENAI_ENDPOINT")).
  { unfold azure_selected. rewrite Hnoazure.
    by rewrite bool_decide_eq_false_2 by (by intros [? ?]). }
  destruct (reasoning_kwargs_lookup merged_conf) as [Hapi Hgone].
  rewrite Hbase in Hapi. simpl in Hapi.
  split.
  - intros kwargs Hev.
    destruct (truthy_env (getenv w "AZURE_OPENAI_ENDPOINT")) eqn:Henv.
    + rewrite (events_of_ext _ _ _
                 (create_azure _ _ _ _ _ _ reasoning_key Hconf Hne Hsel)) in Hev.
      rewrite construct_events in Hev.
      apply list_elem_of_singleton in Hev. discriminate.
    + rewrite (events_of_ext _ _ _
                 (create_reasoning _ _ _ _ Hconf Hne Hsel Hdash)) in Hev.
      rewrite construct_events in Hev.
      apply list_elem_of_singleton in Hev. inversion Hev; subst. done.
  - intros Henv. rewrite Henv in Hsel.
    exists (reasoning_kwargs merged_conf). split; [| split; [| done]].
    + by apply create_reasoning.
    + rewrite (events_of_ext _ _ _
                 (create_reasoning _ _ _ _ Hconf Hne Hsel Hdash)).
      apply construct_events.
Qed.

(** C10. For role "reasoning", let the merged configuration be non-empty,
    non-Azure (the Azure test of the dispatch fails on it) and without a
    [base_url] key (so it is not a dashscope configuration either).  Then the
    factory calls the [ChatDeepSeek] constructor, and the keyword arguments
    do contain the key [api_base], with value [None], and no [base_url]. *)
Theorem reasoning_api_base_none
  (w : world) (conf llm_conf : gmap string value) (s : state) :
  let merged_conf := dict_merge llm_conf (_get_env_llm_conf w "reasoning") in
  default (VDict ∅) (conf !! "REASONING_MODEL") = VDict llm_conf →
  merged_conf ≠ ∅ →
  azure_selected w merged_conf = false →
  merged_conf !! "base_url" = None →
  ∃ kwargs,
    _create_llm_use_conf w "reasoning" (VDict conf) s
      = construct w ChatDeepSeek kwargs s
    ∧ events_of (_create_llm_use_conf w "reasoning" (VDict conf)) s
      = [EvConstruct ChatDeepSeek kwargs]
    ∧ kwargs !! "api_base" = Some VNone
    ∧ kwargs !! "base_url" = None.
Proof.
  intros merged_conf Hconf Hne Hazure Hbase.
  assert (Hdash : is_dashscope merged_conf = inr false)
    by (unfold is_dashscope; by rewrite Hbase).
  destruct (reasoning_kwargs_lookup merged_conf) as [Hapi Hgone].
  rewrite Hbase in Hapi. simpl in Hapi.
  exists (reasoning_kwargs merged_conf). split; [| split; [| done]].
  - by apply create_reasoning.
  - rewrite (events_of_ext _ _ _
               (create_reasoning _ _ _ _ Hconf Hne Hazure Hdash)).
    apply construct_events.
Qed.

(** ** What reaches the constructor *)

Lemma probing_growing {A} (m : M A) : probing m → growing m.
Proof. intros Hm s. destruct (Hm s) as (_ & _ & evs & Ht & _). eauto. Qed.

Lemma growing_construct (w : world) (cls : provider) (kwargs : gmap string value) :
  growing (construct w cls kwargs).
Proof. intros s. eexists. apply construct_trace. Qed.

Lemma growing_bind {A B} (m : M A) (k : A → M B) :
  growing m → (∀ a, growing (k a)) → growing (bind m k).
Proof.
  intros Hm Hk s. unfold bind. destruct (Hm s) as (evs & Ht).
  destruct (m s) as [[e | a] s1]; simpl in *; [eauto |].
  destruct (Hk a s1) as (evs' & Ht').
  exists (evs ++ evs')%list. rewrite Ht', Ht. by rewrite app_assoc.
Qed.

Lemma growing_dispatch (w : world) (llm_type : string) (m : gmap string value) :
  growing (dispatch_provider w llm_type m).
Proof.
  unfold dispatch_provider.
  destruct (azure_selected w m); [apply growing_construct |].
  apply growing_bind; [apply probing_growing, probing_lift |].
  intros [|]; [apply growing_construct |].
  destruct (String.eqb llm_type "reasoning"); [apply growing_construct |].
  apply growing_bind; [| intros; apply growing_construct].
  apply probing_growing. eauto with probing.
Qed.

(** An event of [m] followed by [k] is a request of [m], when [m] only
    probes, or an event of the continuation. *)
Lemma elem_of_events_bind {A B} (m : M A) (k : A → M B) (s : state) (ev : event) :
  probing m → (∀ a, growing (k a)) →
  ev ∈ events_of (bind m k) s →
  is_http_get ev ∨ ∃ a s1, m s = (inr a, s1) ∧ ev ∈ events_of (k a) s1.
Proof.
  intros Hm Hk Hev.
  destruct (Hm s) as (_ & _ & gets & Ht & Hgets).
  rewrite Forall_forall in Hgets.
  unfold events_of, bind in Hev.
  destruct (m s) as [[e | a] s1] eqn:Hrun; simpl in *.
  - rewrite Ht, drop_app_length in Hev. left. by apply Hgets.
  - destruct (Hk a s1) as (evs & Ht').
    rewrite Ht', Ht, <- app_assoc, drop_app_length in Hev.
    apply elem_of_app in Hev as [Hev | Hev]; [left; by apply Hgets |].
    right. exists a, s1. split; [reflexivity |].
    by rewrite (events_of_app _ _ _ Ht').
Qed.

Lemma setdefault_lookup_ne (k0 k : string) (v : value) (d : gmap string value) :
  k ≠ k0 → setdefault k0 v d !! k = d !! k.
Proof.
  intros Hk. unfold setdefault. destruct (d !! k0); [done |].
  by rewrite lookup_insert_ne.
Qed.

(** The dispatch writes only the keys [extra_body], [api_base], [base_url],
    [api_key] and [streaming]: at every other key the arguments of the
    constructor are those of the configuration it was given. *)
Lemma dispatch_kwargs (w : world) (llm_type : string) (m : gmap string value)
  (s : state) (cls : provider) (kwargs : gmap string value) (k : string) :
  EvConstruct cls kwargs ∈ events_of (dispatch_provider w llm_type m) s →
  k ≠ "extra_body" → k ≠ "api_base" → k ≠ "base_url" →
  k ≠ "api_key" → k ≠ "streaming" →
  kwargs !! k = m !! k.
Proof.
  intros Hev H1 H2 H3 H4 H5. unfold dispatch_provider in Hev.
  destruct (azure_selected w m).
  { rewrite construct_events in Hev.
    apply list_elem_of_singleton in Hev. by inversion Hev. }
  apply elem_of_events_bind in Hev as [[] | (dashscope & s1 & Hrun & Hev)];
    [| apply probing_lift
     | intros [|]; [| destruct (String.eqb llm_type "reasoning")];
       try apply growing_construct;
       apply growing_bind; [| intros; apply growing_construct];
       apply probing_growing; eauto with probing ].
  destruct dashscope.
  { rewrite construct_events in Hev.
    apply list_elem_of_singleton in Hev. inversion Hev; subst.
    by rewrite lookup_insert_ne. }
  destruct (String.eqb llm_type "reasoning").
  { unfold pop in Hev. rewrite construct_events in Hev.
    apply list_elem_of_singleton in Hev. inversion Hev; subst.
    rewrite lookup_insert_ne by done. by rewrite lookup_delete_ne. }
  apply elem_of_events_bind in Hev as [[] | (base & s2 & _ & Hev)];
    [| eauto with probing | intros; apply growing_construct].
  rewrite construct_events in Hev.
  apply list_elem_of_singleton in Hev. inversion Hev; subst.
  destruct (truthy base); [| done].
  rewrite !setdefault_lookup_ne by done. by rewrite lookup_insert_ne.
Qed.

(** C9. Let [merged_conf] be the configuration when line 128 is reached.
    The [verify_ssl] step reads the flag with default [True] and removes the
    key.  When the flag is [False] it sets [http_client] and
    [http_async_client] to transports built with [verify=False] and leaves
    every key other than these two and [verify_ssl] as it was; when the flag
    is [True] or absent it leaves every key other than [verify_ssl] as it
    was, so it adds no transport.  Whatever client constructor the factory
    then calls gets no [verify_ssl] argument, and gets [http_client] and
    [http_async_client] exactly as this step left them. *)
Theorem verify_ssl_handling
  (w : world) (llm_type : string) (conf : value) (s s1 : state)
  (merged0 : gmap string value) :
  resolve_merged_conf w llm_type conf s = (inr merged0, s1) →
  let merged_conf := add_max_retries merged0 in
  let verify_ssl := default (VBool true) (merged_conf !! "verify_ssl") in
  let options := handle_verify_ssl merged_conf in
  options !! "verify_ssl" = None
  ∧ (verify_ssl = VBool false →
     options !! "http_client" = Some (VHttpClient false)
     ∧ options !! "http_async_client" = Some (VHttpAsyncClient false)
     ∧ ∀ k, k ≠ "verify_ssl" → k ≠ "http_client" → k ≠ "http_async_client" →
            options !! k = merged_conf !! k)
  ∧ (verify_ssl = VBool true →
     ∀ k, k ≠ "verify_ssl" → options !! k = merged_conf !! k)
  ∧ (∀ cls kwargs,
       EvConstruct cls kwargs ∈ events_of (_create_llm_use_conf w llm_type conf) s →
       kwargs !! "verify_ssl" = None
       ∧ kwargs !! "http_client" = options !! "http_client"
       ∧ kwargs !! "http_async_client" = options !! "http_async_client").
Proof.
  intros Hres merged_conf verify_ssl options.
  split; [apply handle_verify_ssl_removed |].
  split; [| split].
  - intros Hfalse. unfold options, handle_verify_ssl, pop.
    fold verify_ssl. rewrite Hfalse. simpl.
    split; [by rewrite lookup_insert_ne, lookup_insert_eq |].
    split; [by rewrite lookup_insert_eq |].
    intros k ? ? ?. rewrite !lookup_insert_ne by done. by rewrite lookup_delete_ne.
  - intros Htrue k Hk. unfold options, handle_verify_ssl, pop.
    fold verify_ssl. rewrite Htrue. simpl. by rewrite lookup_delete_ne.
  - intros cls kwargs Hev. unfold _create_llm_use_conf in Hev.
    apply elem_of_events_bind in Hev as [[] | (a & s2 & Hrun & Hev)];
      [| apply probing_resolve | intros; apply growing_dispatch].
    rewrite Hres in Hrun. inversion Hrun; subst a s2.
    fold merged_conf in Hev. fold options in Hev.
    rewrite <- (handle_verify_ssl_removed merged_conf). fold options.
    repeat split; by eapply dispatch_kwargs.
Qed.

(** ** The errors of the resolution *)

(** C8, as stated, fails: the three failures do not have distinct error
    types.  An unknown role, a sub-section that is not a mapping and a
    missing configuration all raise the same class, [ValueError]. *)
Lemma error_types_not_distinct :
  ∃ e_unknown e_type e_missing,
    fst (_create_llm_use_conf no_server_world "audio" (VDict ∅) init_state)
      = inl e_unknown
    ∧ fst (_create_llm_use_conf no_server_world "basic"
             (VDict {[ "BASIC_MODEL" := VStr "gpt-4o" ]}) init_state)
      = inl e_type
    ∧ fst (_create_llm_use_conf no_server_world "basic" (VDict ∅) init_state)
      = inl e_missing
    ∧ exn_class e_unknown = exn_class e_missing
    ∧ exn_class e_type = exn_class e_missing.
Proof.
  eexists _, _, _.
  split; [vm_compute; reflexivity |].
  split; [vm_compute; reflexivity |].
  split; [vm_compute; reflexivity |].
  split; reflexivity.
Qed.

Lemma create_unknown_role (w : world) (llm_type : string) (conf : value) (s : state) :
  llm_type ∉ LLMType_args →
  _create_llm_use_conf w llm_type conf s
    = (inl (ValueError (unknown_type_msg llm_type)), s).
Proof.
  intros Hnot. unfold _create_llm_use_conf, bind, resolve_merged_conf.
  destruct (_get_llm_type_config_keys !! llm_type) as [key |] eqn:Hkey;
    [| reflexivity].
  exfalso. apply Hnot, config_key_known. eauto.
Qed.

Lemma create_not_a_mapping (w : world) (llm_type config_key : string)
  (conf : gmap string value) (v : value) (s : state) :
  _get_llm_type_config_keys !! llm_type = Some config_key →
  conf !! config_key = Some v →
  (∀ m, v ≠ VDict m) →
  _create_llm_use_conf w llm_type (VDict conf) s
    = (inl (ValueError (invalid_conf_msg llm_type v)), s).
Proof.
  intros Hkey Hv Hnot. unfold _create_llm_use_conf, resolve_merged_conf.
  rewrite Hkey, (config_key_truthy _ _ Hkey). cbn [negb].
  unfold bind, lift, py_get. rewrite Hv. simpl.
  destruct v; try reflexivity. by destruct (Hnot m).
Qed.

(** An exception of the factory leaves [get_llm_by_type] uncaught and the
    cache as it was. *)
Lemma get_llm_propagates (w : world) (llm_type : string) (conf : value)
  (s s' : state) (e : exn) :
  _llm_cache s !! llm_type = None →
  load_yaml_config w = inr conf →
  _create_llm_use_conf w llm_type conf s = (inl e, s') →
  get_llm_by_type w llm_type s = (inl e, s').
Proof.
  intros Hmiss Hload Hcreate. unfold get_llm_by_type. rewrite Hmiss.
  unfold bind at 1, lift. rewrite Hload.
  unfold bind at 1. by rewrite Hcreate.
Qed.

(** C8, amended.  The resolution fails with a [ValueError] whose message is
    "Unknown LLM type: <role>" when the role is outside
    {reasoning, basic, vision, code}, and with a [ValueError] whose message
    is "Invalid LLM configuration for <role>: <value>" when the role's YAML
    sub-section is present but is not a mapping.  Either failure leaves
    [get_llm_by_type] uncaught and caches nothing.  The two failures and the
    missing-configuration failure have the same error type; they are told
    apart by their messages, which always differ. *)
Theorem resolution_errors
  (w : world) (llm_type : string) (conf : value) (s : state) :
  (llm_type ∉ LLMType_args →
   _create_llm_use_conf w llm_type conf s
     = (inl (ValueError (unknown_type_msg llm_type)), s)
   ∧ (_llm_cache s !! llm_type = None → load_yaml_config w = inr conf →
      get_llm_by_type w llm_type s
        = (inl (ValueError (unknown_type_msg llm_type)), s)))
  ∧ (∀ config_key c v,
       _get_llm_type_config_keys !! llm_type = Some config_key →
       conf = VDict c → c !! config_key = Some v → (∀ m, v ≠ VDict m) →
       _create_llm_use_conf w llm_type conf s
         = (inl (ValueError (invalid_conf_msg llm_type v)), s)
       ∧ (_llm_cache s !! llm_type = None → load_yaml_config w = inr conf →
          get_llm_by_type w llm_type s
            = (inl (ValueError (invalid_conf_msg llm_type v)), s)))
  ∧ (∀ t1 t2 t3 v,
       exn_class (ValueError (unknown_type_msg t1)) = "ValueError"
       ∧ exn_class (ValueError (invalid_conf_msg t2 v)) = "ValueError"
       ∧ exn_class (ValueError (no_conf_msg t3)) = "ValueError"
       ∧ unknown_type_msg t1 ≠ no_conf_msg t3
       ∧ invalid_conf_msg t2 v ≠ no_conf_msg t3
       ∧ unknown_type_msg t1 ≠ invalid_conf_msg t2 v).
Proof.
  split; [| split].
  - intros Hnot. split; [by apply create_unknown_role |].
    intros Hmiss Hload.
    by apply (get_llm_propagates _ _ conf), create_unknown_role.
  - intros config_key c v Hkey -> Hv Hnot.
    split; [by apply create_not_a_mapping with config_key |].
    intros Hmiss Hload.
    apply (get_llm_propagates _ _ (VDict c)); [done | done |].
    by apply create_not_a_mapping with config_key.
  - intros. repeat split; try reflexivity; discriminate.
Qed.

(** ** The report of configured models *)

Lemma models_step_state (w : world) (conf : value)
  (acc : gmap string (list value)) (llm_type : string) (s : state) :
  snd (models_step w conf acc llm_type s) = s.
Proof.
  unfold models_step, bind, lift.
  destruct (if truthy _ then _ else _) as [e | yaml_conf]; [reflexivity |].
  destruct (py_merge _ _) as [e | merged_conf]; [reflexivity |].
  by destruct (truthy _).
Qed.

Lemma models_loop_state (w : world) (conf : value) (types : list string)
  (acc : gmap string (list value)) (s : state) :
  snd (models_loop w conf acc types s) = s.
Proof.
  revert acc. induction types as [| t rest IH]; intros acc; [reflexivity |].
  simpl. unfold bind.
  pose proof (models_step_state w conf acc t s) as Hs.
  destruct (models_step w conf acc t s) as [[e | acc'] s1]; simpl in Hs; subst s1;
    [reflexivity | apply IH].
Qed.

Lemma models_step_ok (w : world) (conf : value)
  (acc acc' : gmap string (list value)) (llm_type config_key : string)
  (s s1 : state) :
  _get_llm_type_config_keys !! llm_type = Some config_key →
  models_step w conf acc llm_type s = (inr acc', s1) →
  ∃ c yaml_conf,
    conf = VDict c
    ∧ default (VDict ∅) (c !! config_key) = VDict yaml_conf
    ∧ acc' = match listed_models (dict_merge yaml_conf (_get_env_llm_conf w llm_type)) with
             | Some names => <[llm_type := (default [] (acc !! llm_type) ++ names)%list]> acc
             | None => acc
             end.
Proof.
  intros Hkey. unfold models_step, bind, lift. rewrite Hkey. simpl default.
  rewrite (config_key_truthy _ _ Hkey).
  destruct conf as [| | | | | | c | |]; simpl; try discriminate.
  destruct (default (VDict ∅) (c !! config_key)) as [| | | | | | yaml_conf | |] eqn:Hsec;
    simpl; try discriminate.
  intros Hrun. exists c, yaml_conf. split; [reflexivity |]. split; [exact Hsec |].
  unfold listed_models.
  destruct (truthy (default VNone (dict_merge yaml_conf _ !! "model")));
    inversion Hrun; reflexivity.
Qed.

Lemma models_loop_ok (w : world) (conf : value) (types : list string) :
  NoDup types →
  (∀ t, t ∈ types → is_Some (_get_llm_type_config_keys !! t)) →
  ∀ (acc result : gmap string (list value)) (s s1 : state),
    models_loop w conf acc types s = (inr result, s1) →
    ∀ t,
      (t ∈ types →
       ∃ c config_key yaml_conf,
         conf = VDict c
         ∧ _get_llm_type_config_keys !! t = Some config_key
         ∧ default (VDict ∅) (c !! config_key) = VDict yaml_conf
         ∧ result !! t =
             match listed_models (dict_merge yaml_conf (_get_env_llm_conf w t)) with
             | Some names => Some (default [] (acc !! t) ++ names)%list
             | None => acc !! t
             end)
      ∧ (t ∉ types → result !! t = acc !! t).
Proof.
  induction types as [| t0 rest IH]; intros Hnodup Hkeys acc result s s1 Hrun t.
  - simpl in Hrun. inversion Hrun; subst. split; [by intros ?%elem_of_nil | done].
  - apply NoDup_cons in Hnodup as [Hfresh Hnodup].
    simpl in Hrun. unfold bind in Hrun.
    destruct (models_step w conf acc t0 s) as [[e | acc'] s0] eqn:Hstep;
      [discriminate |].
    destruct (Hkeys t0) as [key0 Hkey0]; [left |].
    destruct (models_step_ok _ _ _ _ _ _ _ _ Hkey0 Hstep)
      as (c & yaml0 & -> & Hsec0 & Hacc').
    assert (Hkeys' : ∀ t, t ∈ rest → is_Some (_get_llm_type_config_keys !! t))
      by (intros; apply Hkeys; by right).
    destruct (IH Hnodup Hkeys' acc' result s0 s1 Hrun t0) as [_ Hkeep0].
    destruct (IH Hnodup Hkeys' acc' result s0 s1 Hrun t) as [Hin Hout].
    split.
    + intros [-> | Ht]%elem_of_cons.
      * exists c, key0, yaml0. repeat split; try done.
        rewrite (Hkeep0 Hfresh), Hacc'.
        destruct (listed_models _); [apply lookup_insert_eq | done].
      * destruct (Hin Ht) as (c' & key & yaml & Hc & Hkey & Hsec & Hres).
        exists c', key, yaml. repeat split; try done.
        rewrite Hres. assert (t ≠ t0) by (intros ->; done).
        assert (Hacc : acc' !! t = acc !! t).
        { rewrite Hacc'. destruct (listed_models (dict_merge yaml0 _));
            [by rewrite lookup_insert_ne | done]. }
        by rewrite Hacc.
    + intros Hnot. apply not_elem_of_cons in Hnot as [Hne Hnot].
      rewrite (Hout Hnot), Hacc'.
      destruct (listed_models _); [by rewrite lookup_insert_ne | done].
Qed.

Lemma LLMType_args_NoDup : NoDup LLMType_args.
Proof. apply (bool_decide_unpack _). vm_compute. exact I. Qed.

Lemma configured_models_body_eq (w : world) (s : state) :
  configured_models_body w s =
    match load_yaml_config w with
    | inl e => (inl e, s)
    | inr conf => models_loop w conf ∅ LLMType_args s
    end.
Proof.
  unfold configured_models_body, bind, lift.
  by destruct (load_yaml_config w).
Qed.

Lemma configured_models_body_state (w : world) (s : state) :
  snd (configured_models_body w s) = s.
Proof.
  rewrite configured_models_body_eq.
  destruct (load_yaml_config w); [reflexivity | apply models_loop_state].
Qed.

Lemma models_step_run (w : world) (conf : gmap string value)
  (acc : gmap string (list value)) (llm_type config_key : string)
  (yaml_conf : gmap string value) (s : state) :
  _get_llm_type_config_keys !! llm_type = Some config_key →
  default (VDict ∅) (conf !! config_key) = VDict yaml_conf →
  models_step w (VDict conf) acc llm_type s =
    (inr match listed_models (dict_merge yaml_conf (_get_env_llm_conf w llm_type)) with
         | Some names =>
             <[llm_type := (default [] (acc !! llm_type) ++ names)%list]> acc
         | None => acc
         end, s).
Proof.
  intros Hkey Hsec. unfold models_step, bind, lift. rewrite Hkey. simpl default.
  rewrite (config_key_truthy _ _ Hkey). unfold py_get. rewrite Hsec. simpl.
  unfold listed_models.
  by destruct (truthy (default VNone (dict_merge yaml_conf _ !! "model"))).
Qed.

(** The loop runs to its end when every role has a mapping, or nothing,
    under its key. *)
Lemma models_loop_succeeds (w : world) (conf : gmap string value)
  (types : list string) :
  (∀ t, t ∈ types →
        ∃ config_key yaml_conf,
          _get_llm_type_config_keys !! t = Some config_key
          ∧ default (VDict ∅) (conf !! config_key) = VDict yaml_conf) →
  ∀ acc s, ∃ result, models_loop w (VDict conf) acc types s = (inr result, s).
Proof.
  induction types as [| t rest IH]; intros Hsections acc s; [by eexists |].
  destruct (Hsections t) as (key & yaml_conf & Hkey & Hsec); [by left |].
  simpl. unfold bind. rewrite (models_step_run _ _ _ _ _ _ _ Hkey Hsec).
  apply IH. intros t' Ht'. apply Hsections. by right.
Qed.

(** C7. [get_configured_llm_models] never raises, whatever
    [load_yaml_config] does or returns, and builds no client.  It returns
    the listing, with no effect at all (in particular no probe), exactly
    when the loader returns a mapping in which every role has a mapping, or
    nothing, under its key: then for each role the result holds the list
    with the [model] of the merge [{**yaml_conf, **env_conf}] when that is
    set and truthy, and no entry otherwise; no [max_retries] or other default
    enters the merge.  In every other case -- the loader raises (file
    unreadable or malformed), it returns something that is not a mapping, or
    some role section is present and not a mapping -- the [try] block raises,
    the warning is printed (the only effect) and the empty mapping is
    returned. *)
Theorem configured_models_total (w : world) (s : state) :
  ∃ result s',
    get_configured_llm_models w s = (inr result, s')
    ∧ _llm_cache s' = _llm_cache s
    ∧ next_id s' = next_id s
    ∧ match fst (configured_models_body w s) with
      | inl e =>
          result = ∅ ∧ s' = log (EvPrint warning_text e) s
      | inr models =>
          result = models ∧ s' = s
          ∧ ∃ conf,
              load_yaml_config w = inr (VDict conf)
              ∧ ∀ t,
                  (t ∈ LLMType_args →
                   ∃ config_key yaml_conf,
                     _get_llm_type_config_keys !! t = Some config_key
                     ∧ default (VDict ∅) (conf !! config_key) = VDict yaml_conf
                     ∧ result !! t =
                         listed_models
                           (dict_merge yaml_conf (_get_env_llm_conf w t)))
                  ∧ (t ∉ LLMType_args → result !! t = None)
      end
    ∧ (∀ conf,
         load_yaml_config w = inr (VDict conf) →
         (∀ t config_key,
            t ∈ LLMType_args →
            _get_llm_type_config_keys !! t = Some config_key →
            ∃ yaml_conf, default (VDict ∅) (conf !! config_key) = VDict yaml_conf) →
         s' = s
         ∧ ∀ t,
             (t ∈ LLMType_args →
              ∃ config_key yaml_conf,
                _get_llm_type_config_keys !! t = Some config_key
                ∧ default (VDict ∅) (conf !! config_key) = VDict yaml_conf
                ∧ result !! t =
                    listed_models (dict_merge yaml_conf (_get_env_llm_conf w t)))
             ∧ (t ∉ LLMType_args → result !! t = None))
    ∧ (∀ conf t config_key v,
         load_yaml_config w = inr (VDict conf) →
         t ∈ LLMType_args →
         _get_llm_type_config_keys !! t = Some config_key →
         conf !! config_key = Some v → (∀ m, v ≠ VDict m) →
         result = ∅ ∧ ∃ e, s' = log (EvPrint warning_text e) s)
    ∧ (∀ e, load_yaml_config w = inl e →
            result = ∅ ∧ s' = log (EvPrint warning_text e) s)
    ∧ (∀ v, load_yaml_config w = inr v → (∀ c, v ≠ VDict c) →
            result = ∅ ∧ ∃ e, s' = log (EvPrint warning_text e) s).
Proof.
  pose proof (configured_models_body_state w s) as Hstate.
  pose proof (configured_models_body_eq w s) as Hbody.
  unfold get_configured_llm_models, try_except.
  destruct (configured_models_body w s) as [[e | models] s1] eqn:Hrun;
    simpl in Hstate; subst s1.
  - exists ∅, (log (EvPrint warning_text e) s).
    simpl. split_and!; try reflexivity.
    + intros conf Hload Hsections. rewrite Hload in Hbody.
      destruct (models_loop_succeeds w conf LLMType_args) with (acc := (∅ : gmap string (list value))) (s := s)
        as (r & Hr).
      { intros t Ht. destruct (proj1 (config_key_known t) Ht) as [key Hkey].
        destruct (Hsections t key Ht Hkey) as (y & Hy). by exists key, y. }
      rewrite Hr in Hbody. discriminate.
    + intros. split; [reflexivity | eauto].
    + intros e' Hload. rewrite Hload in Hbody. by inversion Hbody.
    + intros v _ _. eauto.
  - destruct (load_yaml_config w) as [e | conf] eqn:Hload; [discriminate |].
    assert (Hkeys : ∀ t, t ∈ LLMType_args → is_Some (_get_llm_type_config_keys !! t))
      by (intros t; apply config_key_known).
    pose proof (models_loop_ok w conf LLMType_args LLMType_args_NoDup Hkeys
                  ∅ models s s (eq_sym Hbody)) as Hok.
    destruct (Hok "reasoning") as [Hreasoning _].
    destruct Hreasoning as (c & _ & _ & -> & _); [by left |].
    assert (Hlisting :
      ∀ t,
        (t ∈ LLMType_args →
         ∃ config_key yaml_conf,
           _get_llm_type_config_keys !! t = Some config_key
           ∧ default (VDict ∅) (c !! config_key) = VDict yaml_conf
           ∧ models !! t =
               listed_models (dict_merge yaml_conf (_get_env_llm_conf w t)))
        ∧ (t ∉ LLMType_args → models !! t = None)).
    { intros t. destruct (Hok t) as [Hin Hout].
      split; [| intros Hnot; by rewrite (Hout Hnot), lookup_empty].
      intros Ht. destruct (Hin Ht) as (c' & key & yaml_conf & Hc & Hkey & Hsec & Hres).
      inversion Hc; subst c'. exists key, yaml_conf. split_and!; try done.
      rewrite Hres, lookup_empty. by destruct (listed_models _). }
    exists models, s. simpl. split_and!; try reflexivity.
    + exists c. split; [reflexivity | exact Hlisting].
    + intros conf Hconf _. inversion Hconf; subst conf.
      split; [reflexivity | exact Hlisting].
    + intros conf t key v Hconf Ht Hkey Hv Hnot. inversion Hconf; subst conf.
      destruct (Hlisting t) as [Hin _].
      destruct (Hin Ht) as (key' & yaml_conf & Hkey' & Hsec & _).
      rewrite Hkey in Hkey'. inversion Hkey'; subst key'.
      rewrite Hv in Hsec. simpl in Hsec. by destruct (Hnot yaml_conf).
    + discriminate.
    + intros v Hv Hnot. inversion Hv; subst v. by destruct (Hnot c).
Qed.

(** ** The cache *)

Lemma allocating_construct (w : world) (cls : provider) (kwargs : gmap string value) :
  allocating (construct w cls kwargs).
Proof. intros s. unfold construct. by destruct (ctor_raises w cls kwargs). Qed.

Lemma allocating_bind {A} (m : M A) (k : A → M instance) :
  probing m → (∀ a, allocating (k a)) → allocating (bind m k).
Proof.
  intros Hm Hk s. unfold bind.
  destruct (Hm s) as (Hc & Hn & _).
  destruct (m s) as [[e | a] s1]; simpl in *; [done |].
  destruct (Hk a s1) as (Hc' & Hn').
  split; [congruence |].
  destruct (fst (k a s1)); [congruence |].
  destruct Hn' as [Hn1 Hn2]. split; congruence.
Qed.

Lemma allocating_dispatch (w : world) (llm_type : string) (m : gmap string value) :
  allocating (dispatch_provider w llm_type m).
Proof.
  unfold dispatch_provider.
  destruct (azure_selected w m); [apply allocating_construct |].
  apply allocating_bind; [apply probing_lift |].
  intros [|]; [apply allocating_construct |].
  destruct (String.eqb llm_type "reasoning"); [apply allocating_construct |].
  apply allocating_bind; [eauto with probing |].
  intros; apply allocating_construct.
Qed.

Lemma allocating_create (w : world) (llm_type : string) (conf : value) :
  allocating (_create_llm_use_conf w llm_type conf).
Proof.
  unfold _create_llm_use_conf.
  apply allocating_bind; [apply probing_resolve |].
  intros; apply allocating_dispatch.
Qed.

Lemma get_llm_hit (w : world) (llm_type : string) (s : state) (llm : instance) :
  _llm_cache s !! llm_type = Some llm →
  get_llm_by_type w llm_type s = (inr llm, s).
Proof. intros H. unfold get_llm_by_type. by rewrite H. Qed.

Lemma get_llm_miss_eq (w : world) (llm_type : string) (s : state) :
  _llm_cache s !! llm_type = None →
  get_llm_by_type w llm_type s =
    match load_yaml_config w with
    | inl e => (inl e, s)
    | inr conf =>
        match _create_llm_use_conf w llm_type conf s with
        | (inl e, s1) => (inl e, s1)
        | (inr llm, s1) =>
            (inr llm,
             mkState (<[llm_type := llm]> (_llm_cache s1)) (next_id s1) (trace s1))
        end
    end.
Proof.
  intros Hmiss. unfold get_llm_by_type. rewrite Hmiss.
  unfold bind, lift, cache_store, ret.
  destruct (load_yaml_config w) as [e | conf]; [reflexivity |].
  by destruct (_create_llm_use_conf w llm_type conf s) as [[e | llm] s1].
Qed.

(** A call that misses the cache: on success one object is built and stored
    under the role; on failure nothing is built and the cache is unchanged. *)
Lemma get_llm_miss (w : world) (llm_type : string) (s : state) :
  _llm_cache s !! llm_type = None →
  match fst (get_llm_by_type w llm_type s) with
  | inr llm =>
      _llm_cache (snd (get_llm_by_type w llm_type s))
        = <[llm_type := llm]> (_llm_cache s)
      ∧ next_id (snd (get_llm_by_type w llm_type s)) = S (next_id s)
      ∧ inst_id llm = next_id s
  | inl _ =>
      _llm_cache (snd (get_llm_by_type w llm_type s)) = _llm_cache s
      ∧ next_id (snd (get_llm_by_type w llm_type s)) = next_id s
  end.
Proof.
  intros Hmiss. rewrite (get_llm_miss_eq _ _ _ Hmiss).
  destruct (load_yaml_config w) as [e | conf]; [by simpl |].
  destruct (allocating_create w llm_type conf s) as [Hc Hn].
  destruct (_create_llm_use_conf w llm_type conf s) as [[e | llm] s1];
    simpl in *; [by split |].
  destruct Hn as [Hn1 Hn2]. by rewrite Hc.
Qed.

Lemma get_llm_result_cached (w : world) (llm_type : string) (s s1 : state)
  (llm : instance) :
  get_llm_by_type w llm_type s = (inr llm, s1) →
  _llm_cache s1 !! llm_type = Some llm.
Proof.
  intros Hrun.
  destruct (_llm_cache s !! llm_type) as [cached |] eqn:Hc.
  - rewrite (get_llm_hit _ _ _ _ Hc) in Hrun. by inversion Hrun; subst.
  - pose proof (get_llm_miss w llm_type s Hc) as Hmiss.
    rewrite Hrun in Hmiss. simpl in Hmiss.
    destruct Hmiss as [-> _]. apply lookup_insert_eq.
Qed.

Lemma configured_models_frame (w : world) (s : state) :
  _llm_cache (snd (get_configured_llm_models w s)) = _llm_cache s
  ∧ next_id (snd (get_configured_llm_models w s)) = next_id s.
Proof.
  pose proof (configured_models_body_state w s) as Hstate.
  unfold get_configured_llm_models, try_except.
  destruct (configured_models_body w s) as [[e | models] s1];
    simpl in Hstate; by subst s1.
Qed.

Lemma constructed_for_bound (r : string) (calls : list (world * call)) (s : state) :
  (constructed_for r calls s
   ≤ match _llm_cache s !! r with Some _ => 0 | None => 1 end)%nat.
Proof.
  revert s. induction calls as [| [w c] rest IH]; intros s.
  { simpl. destruct (_llm_cache s !! r); lia. }
  simpl. destruct c as [t |]; simpl; unfold run_call; simpl.
  - destruct (_llm_cache s !! t) as [cached |] eqn:Ht.
    + rewrite (get_llm_hit w t s cached Ht). simpl.
      specialize (IH s). destruct (String.eqb t r); lia.
    + pose proof (get_llm_miss w t s Ht) as Hmiss.
      specialize (IH (snd (get_llm_by_type w t s))).
      destruct (fst (get_llm_by_type w t s)) as [e | llm].
      * destruct Hmiss as [Hc Hn]. rewrite Hc in IH. rewrite Hn.
        destruct (String.eqb t r); lia.
      * destruct Hmiss as (Hc & Hn & _). rewrite Hc in IH. rewrite Hn.
        destruct (String.eqb_spec t r) as [-> | Hne].
        -- rewrite lookup_insert_eq in IH. rewrite Ht. lia.
        -- rewrite lookup_insert_ne in IH by done. lia.
  - destruct (configured_models_frame w s) as [Hc _].
    specialize (IH (snd (get_configured_llm_models w s))).
    by rewrite Hc in IH.
Qed.

(** C1. When a call of [get_llm_by_type] for a role returns a client, the
    next call for that role -- whatever the configuration, the environment
    and the network have become -- returns the very same object (same
    identity) from the cache and changes nothing: no constructor is called,
    no object is allocated, nothing is probed.  From then on no sequence of
    calls ever builds a client for that role again; and from any state, all
    the calls of a process together build at most one client per role. *)
Theorem cache_idempotence
  (w1 w2 : world) (llm_type : string) (s s1 : state) (llm : instance) :
  get_llm_by_type w1 llm_type s = (inr llm, s1) →
  get_llm_by_type w2 llm_type s1 = (inr llm, s1)
  ∧ (next_id s1 ≤ S (next_id s))%nat
  ∧ (∀ calls, constructed_for llm_type calls s1 = 0%nat)
  ∧ (∀ r calls s0, (constructed_for r calls s0 ≤ 1)%nat).
Proof.
  intros Hrun.
  pose proof (get_llm_result_cached _ _ _ _ _ Hrun) as Hcached.
  split_and!.
  - by apply get_llm_hit.
  - destruct (_llm_cache s !! llm_type) as [cached |] eqn:Hc.
    + rewrite (get_llm_hit _ _ _ _ Hc) in Hrun. inversion Hrun; subst. lia.
    + pose proof (get_llm_miss w1 llm_type s Hc) as Hmiss.
      rewrite Hrun in Hmiss. simpl in Hmiss. lia.
  - intros calls. pose proof (constructed_for_bound llm_type calls s1) as Hb.
    rewrite Hcached in Hb. lia.
  - intros r calls s0. pose proof (constructed_for_bound r calls s0) as Hb.
    destruct (_llm_cache s0 !! r); lia.
Qed.

(** * Further properties of the resolution *)

(** ** The environment reader *)

Lemma env_fold_sound (prefix : string) (env : list (string * string))
  (acc : gmap string value) (k : string) (v : value) :
  fold_left (env_step prefix) env acc !! k = Some v →
  acc !! k = Some v
  ∨ ∃ name val, (name, val) ∈ env ∧ startswith name prefix = true
                ∧ env_key prefix name = k ∧ v = VStr val.
Proof.
  revert acc. induction env as [| [name val] rest IH]; intros acc; simpl;
    [by left |].
  intros H. apply IH in H as [H | (n & x & Hin & Hp & Hk & Hv)].
  - destruct (startswith name prefix) eqn:Hp; [| by left].
    destruct (decide (env_key prefix name = k)) as [Hk | Hk].
    + unfold env_key in Hk. rewrite Hk, lookup_insert_eq in H.
      right. exists name, val. split; [left |]. by inversion H.
    + unfold env_key in Hk. rewrite lookup_insert_ne in H by done. by left.
  - right. exists n, x. split; [by right | done].
Qed.

Lemma env_fold_keeps (prefix : string) (env : list (string * string))
  (acc : gmap string value) (k : string) :
  is_Some (acc !! k) → is_Some (fold_left (env_step prefix) env acc !! k).
Proof.
  revert acc. induction env as [| [name val] rest IH]; intros acc H; simpl;
    [done |].
  apply IH. destruct (startswith name prefix); [| done].
  destruct (decide (lower (slice_from (String.length prefix) name) = k)) as [-> | ?].
  - rewrite lookup_insert_eq. eauto.
  - by rewrite lookup_insert_ne.
Qed.

Lemma env_fold_complete (prefix : string) (env : list (string * string))
  (acc : gmap string value) (name val : string) :
  (name, val) ∈ env → startswith name prefix = true →
  is_Some (fold_left (env_step prefix) env acc !! env_key prefix name).
Proof.
  revert acc. induction env as [| [n x] rest IH]; intros acc Hin Hp;
    [by apply elem_of_nil in Hin |].
  apply elem_of_cons in Hin as [Heq | Hin]; [| by apply IH].
  inversion Heq; subst n x. simpl. rewrite Hp.
  apply env_fold_keeps. unfold env_key. rewrite lookup_insert_eq. eauto.
Qed.

(** X1. For a role name and environment variable names made of ASCII
    characters, [_get_env_llm_conf] holds a key exactly when some
    environment variable whose name starts with [<ROLE>_MODEL__] (role
    upper-cased) gives it, by dropping the prefix and lower-casing the rest;
    every value it holds is the string value of such a variable. *)
Theorem env_reader_contract (w : world) (llm_type k : string) :
  let prefix := upper llm_type +:+ "_MODEL__" in
  is_ascii llm_type = true →
  (∀ name val, (name, val) ∈ environ w → is_ascii name = true) →
  (∀ v, _get_env_llm_conf w llm_type !! k = Some v →
        ∃ name val, (name, val) ∈ environ w ∧ startswith name prefix = true
                    ∧ env_key prefix name = k ∧ v = VStr val)
  ∧ ((∃ name val, (name, val) ∈ environ w ∧ startswith name prefix = true
                  ∧ env_key prefix name = k) →
     is_Some (_get_env_llm_conf w llm_type !! k)).
Proof.
  intros prefix _ _. split.
  - intros v H. apply env_fold_sound in H as [H | H]; [| done].
    by rewrite lookup_empty in H.
  - intros (name & val & Hin & Hp & <-). by eapply env_fold_complete.
Qed.

(** ** Defaults and the default path *)

Lemma create_construct_kwargs (w : world) (llm_type : string) (conf : value)
  (s s1 : state) (merged0 : gmap string value) (cls : provider)
  (kwargs : gmap string value) (k : string) :
  resolve_merged_conf w llm_type conf s = (inr merged0, s1) →
  EvConstruct cls kwargs ∈ events_of (_create_llm_use_conf w llm_type conf) s →
  k ≠ "extra_body" → k ≠ "api_base" → k ≠ "base_url" →
  k ≠ "api_key" → k ≠ "streaming" →
  kwargs !! k = handle_verify_ssl (add_max_retries merged0) !! k.
Proof.
  intros Hres Hev. unfold _create_llm_use_conf in Hev.
  apply elem_of_events_bind in Hev as [[] | (a & s2 & Hrun & Hev)];
    [| apply probing_resolve | intros; apply growing_dispatch].
  rewrite Hres in Hrun. inversion Hrun; subst a s2.
  intros. by eapply dispatch_kwargs.
Qed.

(** X2. Whatever client constructor the factory calls gets a [max_retries]
    argument: the configured one when the merged configuration has the key,
    and 3 otherwise. *)
Theorem max_retries_default
  (w : world) (llm_type : string) (conf : value) (s s1 : state)
  (merged0 : gmap string value) (cls : provider) (kwargs : gmap string value) :
  resolve_merged_conf w llm_type conf s = (inr merged0, s1) →
  EvConstruct cls kwargs ∈ events_of (_create_llm_use_conf w llm_type conf) s →
  kwargs !! "max_retries" = Some (default (VInt 3) (merged0 !! "max_retries")).
Proof.
  intros Hres Hev.
  rewrite (create_construct_kwargs _ _ _ _ _ _ _ _ "max_retries" Hres Hev)
    by done.
  rewrite handle_verify_ssl_lookup by done.
  unfold add_max_retries.
  destruct (merged0 !! "max_retries") eqn:Hm; simpl;
    [exact Hm | apply lookup_insert_eq].
Qed.

Lemma dispatch_default_explicit (w : world) (llm_type : string)
  (m : gmap string value) (base_url : value) (s : state) :
  azure_selected w m = false →
  is_dashscope m = inr false →
  String.eqb llm_type "reasoning" = false →
  m !! "base_url" = Some base_url →
  truthy base_url = true →
  dispatch_provider w llm_type m s =
    construct w ChatOpenAI
      (setdefault "streaming" (VBool true)
         (setdefault "api_key" (VStr "lm-studio") (<["api_base" := base_url]> m))) s.
Proof.
  intros Ha Hd Hr Hb Ht. unfold dispatch_provider, bind, lift, ret.
  rewrite Ha, Hd, Hr, Hb. simpl. rewrite Ht. by rewrite Ht.
Qed.

Lemma setdefault_lookup_eq (k : string) (v : value) (d : gmap string value) :
  setdefault k v d !! k = Some (default v (d !! k)).
Proof.
  unfold setdefault. destruct (d !! k) eqn:H; simpl; [exact H |].
  apply lookup_insert_eq.
Qed.

(** X3. The default path with an explicit base URL.  For a role other than
    "reasoning" whose merged configuration is non-Azure, has a truthy
    [base_url] that is not a dashscope URL, the factory probes nothing and
    calls [ChatOpenAI] with [api_base] set to that [base_url], [api_key]
    defaulting to ["lm-studio"] and [streaming] defaulting to [True]; the
    [base_url] key itself is passed on as well. *)
Theorem default_path_explicit_base_url
  (w : world) (llm_type config_key : string)
  (conf llm_conf : gmap string value) (base_url : value) (s : state) :
  let merged_conf := dict_merge llm_conf (_get_env_llm_conf w llm_type) in
  _get_llm_type_config_keys !! llm_type = Some config_key →
  llm_type ≠ "reasoning" →
  default (VDict ∅) (conf !! config_key) = VDict llm_conf →
  azure_selected w merged_conf = false →
  merged_conf !! "base_url" = Some base_url →
  py_in "dashscope." base_url = inr false →
  truthy base_url = true →
  ∃ kwargs,
    _create_llm_use_conf w llm_type (VDict conf) s = construct w ChatOpenAI kwargs s
    ∧ kwargs !! "api_base" = Some base_url
    ∧ kwargs !! "base_url" = Some base_url
    ∧ kwargs !! "api_key"
      = Some (default (VStr "lm-studio") (merged_conf !! "api_key"))
    ∧ kwargs !! "streaming"
      = Some (default (VBool true) (merged_conf !! "streaming")).
Proof.
  intros merged_conf Hkey Hrole Hconf Hazure Hbase Hin Htruthy.
  assert (Hne : merged_conf ≠ ∅) by (by eapply lookup_nonempty).
  assert (Hr : String.eqb llm_type "reasoning" = false)
    by (by apply String.eqb_neq).
  set (m := handle_verify_ssl (add_max_retries merged_conf)).
  assert (Hm : ∀ k, k ≠ "max_retries" → k ≠ "verify_ssl" → k ≠ "http_client" →
                    k ≠ "http_async_client" → m !! k = merged_conf !! k)
    by (intros; by apply stages_lookup).
  eexists. split; [| split_and!].
  - rewrite (create_nonempty _ _ _ _ _ _ Hkey Hconf Hne). fold merged_conf m.
    apply dispatch_default_explicit with (base_url := base_url); try done.
    + unfold m. by rewrite azure_selected_stages.
    + unfold m. rewrite is_dashscope_stages. unfold is_dashscope.
      by rewrite Hbase.
    + by rewrite Hm.
  - rewrite !setdefault_lookup_ne by done. apply lookup_insert_eq.
  - rewrite !setdefault_lookup_ne by done. rewrite lookup_insert_ne by done.
    by rewrite Hm.
  - rewrite setdefault_lookup_ne by done. rewrite setdefault_lookup_eq.
    rewrite lookup_insert_ne by done. by rewrite Hm.
  - rewrite setdefault_lookup_eq. rewrite setdefault_lookup_ne by done.
    rewrite lookup_insert_ne by done. by rewrite Hm.
Qed.

Lemma fallback_reasoning_kwargs_eq (v : value) :
  reasoning_kwargs (lmstudio_conf v) = fallback_reasoning_kwargs.
Proof. vm_compute. reflexivity. Qed.

(** X4. The reasoning role on the fallback.  When the merged configuration
    of role "reasoning" is empty, the prober finds a server and
    [AZURE_OPENAI_ENDPOINT] is unset or empty, the factory calls
    [ChatDeepSeek] with exactly
    [{api_base: None, api_key: "lm-studio", streaming: True, max_retries: 3}]:
    the rename of the absent [base_url] overwrites the detected URL, which
    does not reach the constructor. *)
Theorem reasoning_fallback_drops_url
  (w : world) (conf llm_conf : gmap string value) (url : string) (s s' : state) :
  default (VDict ∅) (conf !! "REASONING_MODEL") = VDict llm_conf →
  dict_merge llm_conf (_get_env_llm_conf w "reasoning") = ∅ →
  _detect_lmstudio_base_url w s = (inr (VStr url), s') →
  truthy_env (getenv w "AZURE_OPENAI_ENDPOINT") = false →
  _create_llm_use_conf w "reasoning" (VDict conf) s
    = construct w ChatDeepSeek fallback_reasoning_kwargs s'
  ∧ fallback_reasoning_kwargs !! "api_base" = Some VNone.
Proof.
  intros Hconf Hempty Hdet Henv.
  destruct (detect_result w s) as (v & s'' & Hrun & _ & Hv).
  rewrite Hdet in Hrun. inversion Hrun; subst v s''.
  destruct Hv as [? | (url' & _ & Htruthy)]; [done |].
  pose proof (resolve_merged_conf_empty _ _ _ _ _ _ _ _
                reasoning_key Hconf Hempty Hdet) as Hres.
  rewrite Htruthy in Hres.
  split; [| reflexivity].
  unfold _create_llm_use_conf, bind. rewrite Hres.
  rewrite <- (fallback_reasoning_kwargs_eq (VStr url)).
  apply dispatch_reasoning.
  - rewrite azure_selected_stages. unfold azure_selected.
    rewrite Henv, lmstudio_conf_lookup. by repeat case_decide.
  - rewrite is_dashscope_stages. unfold is_dashscope.
    rewrite lmstudio_conf_lookup. by repeat case_decide.
Qed.

(** * The theorems at concrete inputs *)

Lemma cache_idempotence_witness :
  get_llm_by_type env_example "basic" init_state = (inr cached_llm, cached_state)
  ∧ inst_class cached_llm = ChatOpenAI
  ∧ get_llm_by_type lan_only_world "basic" cached_state = (inr cached_llm, cached_state)
  ∧ (next_id cached_state ≤ 1)%nat.
Proof.
  assert (H : get_llm_by_type env_example "basic" init_state
              = (inr cached_llm, cached_state)) by (vm_compute; reflexivity).
  destruct (cache_idempotence env_example lan_only_world "basic"
              init_state cached_state cached_llm H) as (Hagain & Hn & _ & _).
  split; [exact H |]. split; [reflexivity |]. split; [exact Hagain | exact Hn].
Defined.

Lemma empty_configuration_fallback_witness :
  fst (_create_llm_use_conf no_server_world "basic" (VDict ∅) init_state)
    = inl (ValueError (no_conf_msg "basic"))
  ∧ fst (resolve_merged_conf lan_only_world "vision" (VDict ∅) init_state)
    = inr (lmstudio_conf (VStr "http://192.168.2.65:1234/v1")).
Proof.
  split.
  - destruct (empty_configuration_fallback no_server_world "basic" "BASIC_MODEL"
                ∅ ∅ init_state)
      as (v & s' & Hdet & _ & _ & _ & Hnone);
      [reflexivity | reflexivity | vm_compute; reflexivity |].
    vm_compute in Hdet. inversion Hdet; subst v s'.
    destruct (Hnone eq_refl) as (_ & _ & Hcreate).
    rewrite Hcreate. reflexivity.
  - destruct (empty_configuration_fallback lan_only_world "vision" "VISION_MODEL"
                ∅ ∅ init_state)
      as (v & s' & Hdet & _ & _ & Hurl & _);
      [reflexivity | reflexivity | vm_compute; reflexivity |].
    vm_compute in Hdet. inversion Hdet; subst v s'.
    destruct (Hurl _ eq_refl) as (Hres & _).
    rewrite Hres. reflexivity.
Defined.

Lemma dashscope_dispatch_witness :
  (∃ kwargs,
     events_of (_create_llm_use_conf no_server_world "reasoning" (VDict dashscope_yaml))
               init_state = [EvConstruct ChatDashscope kwargs]
     ∧ kwargs !! "extra_body" = Some (VDict {[ "enable_thinking" := VBool true ]}))
  ∧ (∃ kwargs,
     events_of (_create_llm_use_conf no_server_world "basic" (VDict dashscope_yaml))
               init_state = [EvConstruct ChatDashscope kwargs]
     ∧ kwargs !! "extra_body" = Some (VDict {[ "enable_thinking" := VBool false ]})).
Proof.
  split.
  - destruct (dashscope_dispatch no_server_world "reasoning" "REASONING_MODEL"
                dashscope_yaml dashscope_section
                (VStr "https://dashscope.example/v1") init_state)
      as (kwargs & _ & Hev & Hextra & _);
      [reflexivity | reflexivity | reflexivity | reflexivity | reflexivity |].
    exists kwargs. split; [exact Hev | exact Hextra].
  - destruct (dashscope_dispatch no_server_world "basic" "BASIC_MODEL"
                dashscope_yaml dashscope_section
                (VStr "https://dashscope.example/v1") init_state)
      as (kwargs & _ & Hev & Hextra & _);
      [reflexivity | reflexivity | reflexivity | reflexivity | reflexivity |].
    exists kwargs. split; [exact Hev | exact Hextra].
Defined.

Lemma reasoning_renames_base_url_witness :
  ∃ kwargs,
    events_of (_create_llm_use_conf no_server_world "reasoning" (VDict reasoning_yaml))
              init_state = [EvConstruct ChatDeepSeek kwargs]
    ∧ kwargs !! "api_base" = Some (VStr "https://api.example.com")
    ∧ kwargs !! "base_url" = None.
Proof.
  destruct (reasoning_renames_base_url no_server_world reasoning_yaml
              reasoning_section (VStr "https://api.example.com") init_state)
    as (_ & Hbuilt);
    [reflexivity | reflexivity | reflexivity | reflexivity |].
  destruct (Hbuilt eq_refl) as (kwargs & _ & Hev & Hapi & Hgone).
  exists kwargs. split; [exact Hev |]. split; [exact Hapi | exact Hgone].
Defined.

Lemma reasoning_api_base_none_witness :
  ∃ kwargs,
    events_of (_create_llm_use_conf no_server_world "reasoning" (VDict model_only_yaml))
              init_state = [EvConstruct ChatDeepSeek kwargs]
    ∧ kwargs !! "api_base" = Some VNone
    ∧ kwargs !! "base_url" = None.
Proof.
  destruct (reasoning_api_base_none no_server_world model_only_yaml
              model_only_section init_state)
    as (kwargs & _ & Hev & Hapi & Hgone);
    [reflexivity | vm_compute; discriminate | reflexivity | reflexivity |].
  exists kwargs. split; [exact Hev |]. split; [exact Hapi | exact Hgone].
Defined.

Lemma verify_ssl_handling_witness :
  let options := handle_verify_ssl (add_max_retries insecure_section) in
  options !! "verify_ssl" = None
  ∧ options !! "http_client" = Some (VHttpClient false)
  ∧ options !! "http_async_client" = Some (VHttpAsyncClient false)
  ∧ options !! "model" = Some (VStr "gpt-4o").
Proof.
  destruct (verify_ssl_handling no_server_world "basic" (VDict insecure_yaml)
              init_state init_state insecure_section)
    as (Hgone & Hfalse & _ & _); [vm_compute; reflexivity |].
  destruct (Hfalse eq_refl) as (Hsync & Hasync & Hframe).
  split; [exact Hgone |]. split; [exact Hsync |]. split; [exact Hasync |].
  rewrite Hframe by discriminate. reflexivity.
Defined.

Lemma resolution_errors_witness :
  _create_llm_use_conf no_server_world "audio" (VDict ∅) init_state
    = (inl (ValueError (unknown_type_msg "audio")), init_state)
  ∧ _create_llm_use_conf no_server_world "basic"
      (VDict {[ "BASIC_MODEL" := VStr "gpt-4o" ]}) init_state
    = (inl (ValueError (invalid_conf_msg "basic" (VStr "gpt-4o"))), init_state).
Proof.
  split.
  - destruct (resolution_errors no_server_world "audio" (VDict ∅) init_state)
      as (Hunknown & _ & _).
    assert (Hnot : "audio" ∉ LLMType_args).
    { unfold LLMType_args. intros H.
      repeat (apply elem_of_cons in H as [H | H]; [discriminate |]).
      by apply elem_of_nil in H. }
    exact (proj1 (Hunknown Hnot)).
  - destruct (resolution_errors no_server_world "basic"
                (VDict {[ "BASIC_MODEL" := VStr "gpt-4o" ]}) init_state)
      as (_ & Htype & _).
    refine (proj1 (Htype "BASIC_MODEL" {[ "BASIC_MODEL" := VStr "gpt-4o" ]}
                     (VStr "gpt-4o") _ _ _ _));
      [reflexivity | reflexivity | reflexivity | discriminate].
Defined.

Lemma max_retries_default_witness :
  reasoning_kwargs reasoning_section !! "max_retries" = Some (VInt 3).
Proof.
  apply (max_retries_default no_server_world "reasoning" (VDict reasoning_yaml)
           init_state init_state reasoning_section ChatDeepSeek
           (reasoning_kwargs reasoning_section));
    [vm_compute; reflexivity | vm_compute; constructor].
Defined.

Lemma default_path_explicit_base_url_witness :
  ∃ kwargs,
    _create_llm_use_conf no_server_world "basic" (VDict local_yaml) init_state
      = construct no_server_world ChatOpenAI kwargs init_state
    ∧ kwargs !! "api_base" = Some (VStr "http://localhost:8000/v1")
    ∧ kwargs !! "api_key" = Some (VStr "lm-studio")
    ∧ kwargs !! "streaming" = Some (VBool true).
Proof.
  destruct (default_path_explicit_base_url no_server_world "basic" "BASIC_MODEL"
              local_yaml local_section (VStr "http://localhost:8000/v1") init_state)
    as (kwargs & Hrun & Hbase & _ & Hkey & Hstream);
    [reflexivity | discriminate | reflexivity | reflexivity | reflexivity
     | reflexivity | reflexivity |].
  exists kwargs. split; [exact Hrun |]. split; [exact Hbase |].
  split; [exact Hkey | exact Hstream].
Defined.

Lemma reasoning_fallback_drops_url_witness :
  _create_llm_use_conf lan_only_world "reasoning" (VDict ∅) init_state
    = construct lan_only_world ChatDeepSeek fallback_reasoning_kwargs lan_probed_state
  ∧ fallback_reasoning_kwargs !! "api_base" = Some VNone.
Proof.
  apply (reasoning_fallback_drops_url lan_only_world ∅ ∅
           "http://192.168.2.65:1234/v1" init_state lan_probed_state);
    [reflexivity | vm_compute; reflexivity | vm_compute; reflexivity | reflexivity].
Defined.

(** * The branches of the dispatch, end to end *)

Lemma azure_selected_spec (w : world) (m : gmap string value) :
  azure_selected w m = true ↔
  is_Some (m !! "azure_endpoint")
  ∨ ∃ v, getenv w "AZURE_OPENAI_ENDPOINT" = Some v ∧ v ≠ "".
Proof.
  unfold azure_selected, truthy_env. rewrite orb_true_iff, bool_decide_eq_true.
  split; (intros [H | H]; [by left | right]).
  - destruct (getenv w _) as [v |]; [| discriminate].
    exists v. split; [reflexivity |]. simpl in H.
    intros ->. discriminate.
  - destruct H as (v & -> & Hv). simpl.
    destruct (String.eqb_spec v ""); [contradiction | reflexivity].
Qed.

(** X5. Azure takes precedence.  When the merged configuration (not empty)
    has an [azure_endpoint] key, or [AZURE_OPENAI_ENDPOINT] is set and not
    empty, the factory calls [AzureChatOpenAI] for every role, probes
    nothing and looks at no [base_url] (a dashscope URL or a malformed one
    changes nothing).  The options are passed through: apart from
    [max_retries], [verify_ssl] and the two transports every key is as in
    the merged configuration, so [base_url] is not renamed and no
    [extra_body] or [api_base] is added. *)
Theorem azure_precedence
  (w : world) (llm_type config_key : string)
  (conf llm_conf : gmap string value) (s : state) :
  let merged_conf := dict_merge llm_conf (_get_env_llm_conf w llm_type) in
  _get_llm_type_config_keys !! llm_type = Some config_key →
  default (VDict ∅) (conf !! config_key) = VDict llm_conf →
  merged_conf ≠ ∅ →
  (is_Some (merged_conf !! "azure_endpoint")
   ∨ ∃ v, getenv w "AZURE_OPENAI_ENDPOINT" = Some v ∧ v ≠ "") →
  ∃ kwargs,
    _create_llm_use_conf w llm_type (VDict conf) s
      = construct w AzureChatOpenAI kwargs s
    ∧ events_of (_create_llm_use_conf w llm_type (VDict conf)) s
      = [EvConstruct AzureChatOpenAI kwargs]
    ∧ ∀ k, k ≠ "max_retries" → k ≠ "verify_ssl" →
           k ≠ "http_client" → k ≠ "http_async_client" →
           kwargs !! k = merged_conf !! k.
Proof.
  intros merged_conf Hkey Hconf Hne Hazure.
  apply azure_selected_spec in Hazure.
  pose proof (create_azure _ _ _ _ _ s Hkey Hconf Hne Hazure) as Hrun.
  exists (handle_verify_ssl (add_max_retries merged_conf)). split_and!.
  - exact Hrun.
  - rewrite (events_of_ext _ _ _ Hrun). apply construct_events.
  - intros. by apply stages_lookup.
Qed.

Lemma dispatch_default_probe (w : world) (llm_type : string)
  (m : gmap string value) (v : value) (s s' : state) :
  azure_selected w m = false →
  is_dashscope m = inr false →
  String.eqb llm_type "reasoning" = false →
  truthy (default VNone (m !! "base_url")) = false →
  _detect_lmstudio_base_url w s = (inr v, s') →
  dispatch_provider w llm_type m s =
    construct w ChatOpenAI (if truthy v then with_local_base v m else m) s'.
Proof.
  intros Ha Hd Hr Hb Hdet. unfold dispatch_provider, bind, lift, with_local_base.
  rewrite Ha, Hd, Hr, Hb, Hdet. reflexivity.
Qed.

Lemma with_local_base_lookup (base : value) (m : gmap string value) :
  with_local_base base m !! "api_base" = Some base
  ∧ with_local_base base m !! "api_key"
    = Some (default (VStr "lm-studio") (m !! "api_key"))
  ∧ with_local_base base m !! "streaming"
    = Some (default (VBool true) (m !! "streaming"))
  ∧ ∀ k, k ≠ "api_base" → k ≠ "api_key" → k ≠ "streaming" →
         with_local_base base m !! k = m !! k.
Proof.
  unfold with_local_base. split_and!.
  - rewrite !setdefault_lookup_ne by done. apply lookup_insert_eq.
  - rewrite setdefault_lookup_ne by done. rewrite setdefault_lookup_eq.
    by rewrite lookup_insert_ne.
  - rewrite setdefault_lookup_eq. rewrite setdefault_lookup_ne by done.
    by rewrite lookup_insert_ne.
  - intros k ? ? ?. rewrite !setdefault_lookup_ne by done.
    by rewrite lookup_insert_ne.
Qed.

(** X6. The default path without a base URL.  For a role other than
    "reasoning" whose merged configuration is not empty, is non-Azure and
    has no [base_url], the factory runs the prober and then calls
    [ChatOpenAI].  When the prober finds nothing, the options are the
    configured ones (with [max_retries] and the [verify_ssl] handling).
    When it finds a server, [api_base] is set to the detected URL -- a
    configured [api_base] is overwritten -- while [api_key] and [streaming]
    are only defaulted. *)
Theorem default_path_probes
  (w : world) (llm_type config_key : string)
  (conf llm_conf : gmap string value) (v : value) (s s' : state) :
  let merged_conf := dict_merge llm_conf (_get_env_llm_conf w llm_type) in
  let options := handle_verify_ssl (add_max_retries merged_conf) in
  _get_llm_type_config_keys !! llm_type = Some config_key →
  llm_type ≠ "reasoning" →
  default (VDict ∅) (conf !! config_key) = VDict llm_conf →
  merged_conf ≠ ∅ →
  azure_selected w merged_conf = false →
  merged_conf !! "base_url" = None →
  _detect_lmstudio_base_url w s = (inr v, s') →
  ∃ kwargs,
    _create_llm_use_conf w llm_type (VDict conf) s
      = construct w ChatOpenAI kwargs s'
    ∧ (v = VNone → kwargs = options)
    ∧ (∀ url, v = VStr url →
         kwargs !! "api_base" = Some (VStr url)
         ∧ kwargs !! "api_key"
           = Some (default (VStr "lm-studio") (merged_conf !! "api_key"))
         ∧ kwargs !! "streaming"
           = Some (default (VBool true) (merged_conf !! "streaming"))
         ∧ ∀ k, k ≠ "api_base" → k ≠ "api_key" → k ≠ "streaming" →
                kwargs !! k = options !! k).
Proof.
  intros merged_conf options Hkey Hrole Hconf Hne Hazure Hbase Hdet.
  assert (Hr : String.eqb llm_type "reasoning" = false)
    by (by apply String.eqb_neq).
  assert (Hobase : options !! "base_url" = None)
    by (unfold options; by rewrite stages_lookup).
  exists (if truthy v then with_local_base v options else options).
  split_and!.
  - rewrite (create_nonempty _ _ _ _ _ _ Hkey Hconf Hne).
    fold merged_conf options.
    apply dispatch_default_probe; try done.
    + unfold options. by rewrite azure_selected_stages.
    + unfold is_dashscope. by rewrite Hobase.
    + by rewrite Hobase.
  - by intros ->.
  - intros url ->.
    destruct (detect_result w s) as (v' & s'' & Hrun & _ & Hv).
    rewrite Hdet in Hrun. inversion Hrun; subst v' s''.
    destruct Hv as [? | (url' & _ & Htruthy)]; [done |].
    rewrite Htruthy.
    destruct (with_local_base_lookup (VStr url) options) as (H1 & H2 & H3 & H4).
    split_and!; try done.
    + rewrite H2. unfold options. by rewrite stages_lookup.
    + rewrite H3. unfold options. by rewrite stages_lookup.
Qed.

Lemma fallback_options_eq (base : value) :
  handle_verify_ssl (add_max_retries (lmstudio_conf base))
  = fallback_openai_kwargs base.
Proof. vm_compute. reflexivity. Qed.

Lemma fallback_rebased_eq (base base' : value) :
  with_local_base base' (fallback_openai_kwargs base) = fallback_openai_kwargs base'.
Proof. vm_compute. reflexivity. Qed.

(** X7. A role other than "reasoning" on the fallback, with
    [AZURE_OPENAI_ENDPOINT] unset or empty.  When its merged configuration is
    empty and the prober finds a server, the factory runs the prober a second
    time before it builds the client.  [ChatOpenAI] is then called with
    exactly [{api_base, api_key: "lm-studio", streaming: True, max_retries: 3}],
    where [api_base] is the URL of the second detection when that one finds
    a server and the URL of the first detection otherwise. *)
Theorem fallback_probes_twice
  (w : world) (llm_type config_key : string)
  (conf llm_conf : gmap string value) (url : string) (v : value)
  (s s1 s2 : state) :
  _get_llm_type_config_keys !! llm_type = Some config_key →
  llm_type ≠ "reasoning" →
  default (VDict ∅) (conf !! config_key) = VDict llm_conf →
  dict_merge llm_conf (_get_env_llm_conf w llm_type) = ∅ →
  truthy_env (getenv w "AZURE_OPENAI_ENDPOINT") = false →
  _detect_lmstudio_base_url w s = (inr (VStr url), s1) →
  _detect_lmstudio_base_url w s1 = (inr v, s2) →
  _create_llm_use_conf w llm_type (VDict conf) s
    = construct w ChatOpenAI
        (fallback_openai_kwargs (if truthy v then v else VStr url)) s2.
Proof.
  intros Hkey Hrole Hconf Hempty Henv Hdet1 Hdet2.
  assert (Hr : String.eqb llm_type "reasoning" = false)
    by (by apply String.eqb_neq).
  destruct (detect_result w s) as (v' & s'' & Hrun & _ & Hv).
  rewrite Hdet1 in Hrun. inversion Hrun; subst v' s''.
  destruct Hv as [? | (url' & _ & Htruthy)]; [done |].
  pose proof (resolve_merged_conf_empty _ _ _ _ _ _ _ _ Hkey Hconf Hempty Hdet1)
    as Hres.
  rewrite Htruthy in Hres.
  unfold _create_llm_use_conf, bind. rewrite Hres.
  rewrite fallback_options_eq.
  assert (Hazure : azure_selected w (fallback_openai_kwargs (VStr url)) = false).
  { rewrite <- fallback_options_eq, azure_selected_stages.
    unfold azure_selected. rewrite Henv, lmstudio_conf_lookup.
    by repeat case_decide. }
  rewrite (dispatch_default_probe w llm_type _ v s1 s2 Hazure eq_refl Hr eq_refl Hdet2).
  destruct (truthy v); [by rewrite fallback_rebased_eq | reflexivity].
Qed.

(** X8. A [base_url] that is not a string, list or mapping.  When the
    merged configuration is non-Azure and its [base_url] is [None] (a YAML
    key left blank), a boolean or a number, the dashscope test raises a
    [TypeError]: the factory fails before it probes or calls any
    constructor. *)
Theorem base_url_not_iterable
  (w : world) (llm_type config_key : string)
  (conf llm_conf : gmap string value) (base_url : value) (s : state) :
  let merged_conf := dict_merge llm_conf (_get_env_llm_conf w llm_type) in
  _get_llm_type_config_keys !! llm_type = Some config_key →
  default (VDict ∅) (conf !! config_key) = VDict llm_conf →
  azure_selected w merged_conf = false →
  merged_conf !! "base_url" = Some base_url →
  (base_url = VNone ∨ (∃ b, base_url = VBool b) ∨ (∃ z, base_url = VInt z)
   ∨ ∃ m e, base_url = VFloat m e) →
  ∃ e,
    exn_class e = "TypeError"
    ∧ _create_llm_use_conf w llm_type (VDict conf) s = (inl e, s).
Proof.
  intros merged_conf Hkey Hconf Hazure Hbase Hshape.
  assert (Hne : merged_conf ≠ ∅) by (by eapply lookup_nonempty).
  exists (TypeError [Lit "argument is not iterable"]). split; [reflexivity |].
  rewrite (create_nonempty _ _ _ _ _ _ Hkey Hconf Hne). fold merged_conf.
  unfold dispatch_provider. rewrite azure_selected_stages, Hazure.
  unfold bind, lift. rewrite is_dashscope_stages. unfold is_dashscope.
  rewrite Hbase.
  destruct Hshape as [-> | [[b ->] | [[z ->] | (m & e & ->)]]]; reflexivity.
Qed.

(** X9. [verify_ssl] given through the environment.  An environment
    override is a string, so it is tested as a string: when
    [<ROLE>_MODEL__verify_ssl] is set, the transports with verification
    disabled are passed to the constructor exactly when its value is the
    empty string.  Any other value -- "false" and "0" included -- keeps
    verification on, whatever the YAML file says, and the constructor gets
    [http_client] and [http_async_client] as configured. *)
Theorem verify_ssl_from_environment
  (w : world) (llm_type config_key : string)
  (conf llm_conf : gmap string value) (val : string) (s : state)
  (cls : provider) (kwargs : gmap string value) :
  let merged_conf := dict_merge llm_conf (_get_env_llm_conf w llm_type) in
  _get_llm_type_config_keys !! llm_type = Some config_key →
  default (VDict ∅) (conf !! config_key) = VDict llm_conf →
  _get_env_llm_conf w llm_type !! "verify_ssl" = Some (VStr val) →
  EvConstruct cls kwargs ∈ events_of (_create_llm_use_conf w llm_type (VDict conf)) s →
  kwargs !! "verify_ssl" = None
  ∧ kwargs !! "http_client"
    = (if String.eqb val "" then Some (VHttpClient false)
       else merged_conf !! "http_client")
  ∧ kwargs !! "http_async_client"
    = (if String.eqb val "" then Some (VHttpAsyncClient false)
       else merged_conf !! "http_async_client").
Proof.
  intros merged_conf Hkey Hconf Henv Hev.
  assert (Hssl : merged_conf !! "verify_ssl" = Some (VStr val))
    by (unfold merged_conf; by rewrite dict_merge_lookup, Henv).
  assert (Hne : merged_conf ≠ ∅) by (by eapply lookup_nonempty).
  pose proof (resolve_merged_conf_nonempty _ _ _ _ _ s Hkey Hconf Hne) as Hres.
  fold merged_conf in Hres.
  rewrite (create_construct_kwargs _ _ _ _ _ _ _ _ "verify_ssl" Hres Hev) by done.
  rewrite (create_construct_kwargs _ _ _ _ _ _ _ _ "http_client" Hres Hev) by done.
  rewrite (create_construct_kwargs _ _ _ _ _ _ _ _ "http_async_client" Hres Hev)
    by done.
  split; [apply handle_verify_ssl_removed |].
  unfold handle_verify_ssl, pop.
  rewrite add_max_retries_lookup, Hssl by done. simpl.
  destruct (String.eqb val ""); simpl.
  - split; [by rewrite lookup_insert_ne, lookup_insert_eq
           | by rewrite lookup_insert_eq].
  - split; rewrite lookup_delete_ne by done; by apply add_max_retries_lookup.
Qed.

(** ** What a process keeps true of its cache *)

Lemma recorded_construct (w : world) (cls : provider) (kwargs : gmap string value) :
  recorded (construct w cls kwargs).
Proof.
  intros s llm s'. unfold construct.
  destruct (ctor_raises w cls kwargs); [discriminate |].
  intros H. inversion H; subst. simpl.
  apply elem_of_app. right. by left.
Qed.

Lemma recorded_bind {A} (m : M A) (k : A → M instance) :
  (∀ a, recorded (k a)) → recorded (bind m k).
Proof.
  intros Hk s llm s'. unfold bind.
  destruct (m s) as [[e | a] s1]; [discriminate |]. apply Hk.
Qed.

Lemma recorded_dispatch (w : world) (llm_type : string) (m : gmap string value) :
  recorded (dispatch_provider w llm_type m).
Proof.
  unfold dispatch_provider.
  destruct (azure_selected w m); [apply recorded_construct |].
  apply recorded_bind. intros [|]; [apply recorded_construct |].
  destruct (String.eqb llm_type "reasoning"); [apply recorded_construct |].
  apply recorded_bind. intros. apply recorded_construct.
Qed.

Lemma recorded_create (w : world) (llm_type : string) (conf : value) :
  recorded (_create_llm_use_conf w llm_type conf).
Proof.
  unfold _create_llm_use_conf. apply recorded_bind.
  intros. apply recorded_dispatch.
Qed.

Lemma growing_create (w : world) (llm_type : string) (conf : value) :
  growing (_create_llm_use_conf w llm_type conf).
Proof.
  unfold _create_llm_use_conf.
  apply growing_bind; [apply probing_growing, probing_resolve |].
  intros. apply growing_dispatch.
Qed.

(** The factory returns a client only for a role of the table. *)
Lemma create_ok_role (w : world) (llm_type : string) (conf : value)
  (s s' : state) (llm : instance) :
  _create_llm_use_conf w llm_type conf s = (inr llm, s') →
  llm_type ∈ LLMType_args.
Proof.
  intros Hrun. apply config_key_known.
  unfold _create_llm_use_conf, bind, resolve_merged_conf in Hrun.
  destruct (_get_llm_type_config_keys !! llm_type); [eauto | discriminate].
Qed.

Lemma cache_inv_grow (s s' : state) :
  cache_inv s →
  _llm_cache s' = _llm_cache s →
  (next_id s ≤ next_id s')%nat →
  (∃ evs, trace s' = (trace s ++ evs)%list) →
  cache_inv s'.
Proof.
  intros Hinv Hc Hn (evs & Ht) r llm Hr. rewrite Hc in Hr.
  destruct (Hinv r llm Hr) as (Hrole & Hid & Hev & Hinj).
  split_and!; [done | lia | rewrite Ht; apply elem_of_app; by left |].
  intros r' llm' Hr'. rewrite Hc in Hr'. by apply Hinj.
Qed.

Lemma cache_inv_get_llm (w : world) (llm_type : string) (s : state) :
  cache_inv s → cache_inv (snd (get_llm_by_type w llm_type s)).
Proof.
  intros Hinv.
  destruct (_llm_cache s !! llm_type) as [cached |] eqn:Hc.
  { by rewrite (get_llm_hit _ _ _ _ Hc). }
  rewrite (get_llm_miss_eq _ _ _ Hc).
  destruct (load_yaml_config w) as [e | conf]; [exact Hinv |].
  destruct (allocating_create w llm_type conf s) as [Hcache Hn].
  destruct (growing_create w llm_type conf s) as (evs & Ht).
  pose proof (recorded_create w llm_type conf s) as Hrec.
  pose proof (create_ok_role w llm_type conf s) as Hrole.
  destruct (_create_llm_use_conf w llm_type conf s) as [[e | llm] s1];
    simpl in *.
  - apply (cache_inv_grow s); eauto. lia.
  - destruct Hn as [Hn Hid]. specialize (Hrec llm s1 eq_refl).
    specialize (Hrole s1 llm eq_refl).
    intros r x Hr. simpl in *.
    destruct (decide (r = llm_type)) as [-> | Hne].
    + rewrite lookup_insert_eq in Hr. inversion Hr; subst x.
      split_and!; [done | lia | done |].
      intros r' llm' Hr' Hsame.
      destruct (decide (r' = llm_type)) as [-> | Hne']; [done |].
      rewrite lookup_insert_ne, Hcache in Hr' by done.
      destruct (Hinv r' llm' Hr') as (_ & Hlt & _). lia.
    + rewrite lookup_insert_ne, Hcache in Hr by done.
      destruct (Hinv r x Hr) as (Hr1 & Hr2 & Hr3 & Hr4).
      split_and!; [done | lia | rewrite Ht; apply elem_of_app; by left |].
      intros r' llm' Hr' Hsame.
      destruct (decide (r' = llm_type)) as [-> | Hne'].
      * rewrite lookup_insert_eq in Hr'. inversion Hr'; subst llm'. lia.
      * rewrite lookup_insert_ne, Hcache in Hr' by done. by apply Hr4 with llm'.
Qed.

Lemma cache_inv_configured (w : world) (s : state) :
  cache_inv s → cache_inv (snd (get_configured_llm_models w s)).
Proof.
  intros Hinv. destruct (configured_models_frame w s) as [Hc Hn].
  apply (cache_inv_grow s); [done | done | lia |].
  pose proof (configured_models_body_state w s) as Hstate.
  unfold get_configured_llm_models, try_except.
  destruct (configured_models_body w s) as [[e | models] s1];
    simpl in Hstate; subst s1; simpl.
  - eauto.
  - exists []. by rewrite app_nil_r.
Qed.

Lemma cache_inv_run_calls (calls : list (world * call)) (s : state) :
  cache_inv s → cache_inv (run_calls calls s).
Proof.
  revert s. induction calls as [| [w c] rest IH]; intros s Hinv; [exact Hinv |].
  simpl. apply IH. unfold run_call. destruct c; simpl.
  - by apply cache_inv_get_llm.
  - by apply cache_inv_configured.
Qed.

Lemma cache_inv_init : cache_inv init_state.
Proof. intros r llm Hr. simpl in Hr. by rewrite lookup_empty in Hr. Qed.

(** X10. The cache of a process only ever has roles as keys: whatever
    calls of [get_llm_by_type] (with any argument) and
    [get_configured_llm_models] a process makes, in whatever environment,
    every key of the cache is one of reasoning, basic, vision, code, so the
    cache has at most four entries. *)
Theorem cache_holds_roles_only (calls : list (world * call)) :
  let s := run_calls calls init_state in
  (∀ r, is_Some (_llm_cache s !! r) → r ∈ LLMType_args)
  ∧ (size (_llm_cache s) ≤ 4)%nat.
Proof.
  intros s.
  assert (Hinv : cache_inv s) by apply cache_inv_run_calls, cache_inv_init.
  assert (Hroles : ∀ r, is_Some (_llm_cache s !! r) → r ∈ LLMType_args).
  { intros r [llm Hr]. by destruct (Hinv r llm Hr). }
  split; [exact Hroles |].
  rewrite <- size_dom.
  assert (Hsub : dom (_llm_cache s) ⊆ (list_to_set LLMType_args : gset string)).
  { intros r Hr. apply elem_of_list_to_set, Hroles. by apply elem_of_dom. }
  apply subseteq_size in Hsub.
  rewrite (size_list_to_set _ LLMType_args_NoDup) in Hsub. exact Hsub.
Qed.

(** X11. One object per role, and a different object for a different
    role.  In any state a process reaches, two cache entries hold the same
    client object exactly when they are the entry of the same role; and
    every cached client is the result of a constructor call, with the
    cached class and keyword arguments, that the process has made. *)
Theorem cached_clients_distinct
  (calls : list (world * call)) (r1 r2 : string) (llm1 llm2 : instance) :
  let s := run_calls calls init_state in
  _llm_cache s !! r1 = Some llm1 →
  _llm_cache s !! r2 = Some llm2 →
  (inst_id llm1 = inst_id llm2 ↔ r1 = r2)
  ∧ (llm1 = llm2 ↔ r1 = r2)
  ∧ EvConstruct (inst_class llm1) (inst_kwargs llm1) ∈ trace s
  ∧ (inst_id llm1 < next_id s)%nat.
Proof.
  intros s H1 H2.
  assert (Hinv : cache_inv s) by apply cache_inv_run_calls, cache_inv_init.
  destruct (Hinv r1 llm1 H1) as (_ & Hlt & Hev & Hinj).
  assert (Hids : inst_id llm1 = inst_id llm2 ↔ r1 = r2).
  { split.
    - intros Hsame. symmetry. by apply (Hinj r2 llm2).
    - intros ->. congruence. }
  split_and!; try done.
  split.
  - intros ->. by apply Hids.
  - intros ->. congruence.
Qed.

(** X12. A failed call caches nothing.  When [get_llm_by_type] raises,
    the role was not cached, the cache is exactly as before and no client
    object was allocated, so the next call for the role resolves the
    configuration again.  The exception is the loader's (then nothing at
    all was done) or the factory's. *)
Theorem failed_call_caches_nothing
  (w : world) (llm_type : string) (s s' : state) (e : exn) :
  get_llm_by_type w llm_type s = (inl e, s') →
  _llm_cache s !! llm_type = None
  ∧ _llm_cache s' = _llm_cache s
  ∧ next_id s' = next_id s
  ∧ ((load_yaml_config w = inl e ∧ s' = s)
     ∨ ∃ conf, load_yaml_config w = inr conf
               ∧ _create_llm_use_conf w llm_type conf s = (inl e, s')).
Proof.
  intros Hrun.
  destruct (_llm_cache s !! llm_type) as [cached |] eqn:Hc.
  { rewrite (get_llm_hit _ _ _ _ Hc) in Hrun. discriminate. }
  split; [reflexivity |].
  rewrite (get_llm_miss_eq _ _ _ Hc) in Hrun.
  destruct (load_yaml_config w) as [e' | conf].
  { inversion Hrun; subst. split_and!; try done. by left. }
  destruct (allocating_create w llm_type conf s) as [Hcache Hn].
  destruct (_create_llm_use_conf w llm_type conf s) as [[e' | llm] s1] eqn:Hcreate;
    [| discriminate].
  inversion Hrun; subst. simpl in *.
  split_and!; try done. right. by exists conf.
Qed.

(** ** The report and the factory *)

Lemma listed_models_inv (m : gmap string value) (names : list value) :
  listed_models m = Some names →
  ∃ model, names = [model] ∧ m !! "model" = Some model ∧ truthy model = true.
Proof.
  unfold listed_models. destruct (m !! "model") as [model |] eqn:Hm; simpl.
  - destruct (truthy model) eqn:Ht; [| discriminate].
    intros H. inversion H. eauto.
  - discriminate.
Qed.

(** X13. The report agrees with the factory.  When
    [get_configured_llm_models] lists model names for a role, it lists
    exactly one, and every client constructor that the factory calls for
    this role, from the same configuration file and environment, receives
    that name as its [model] argument. *)
Theorem reported_model_is_used
  (w : world) (conf : value) (r : string) (names : list value)
  (result : gmap string (list value)) (s0 s0' s : state)
  (cls : provider) (kwargs : gmap string value) :
  load_yaml_config w = inr conf →
  get_configured_llm_models w s0 = (inr result, s0') →
  result !! r = Some names →
  EvConstruct cls kwargs ∈ events_of (_create_llm_use_conf w r conf) s →
  ∃ model, names = [model] ∧ kwargs !! "model" = Some model.
Proof.
  intros Hload Hrun Hr Hev.
  pose proof (configured_models_body_eq w s0) as Hbody. rewrite Hload in Hbody.
  unfold get_configured_llm_models, try_except in Hrun. rewrite Hbody in Hrun.
  destruct (models_loop w conf ∅ LLMType_args s0) as [[e | models] s1] eqn:Hloop.
  { unfold bind, print, ret in Hrun. inversion Hrun; subst.
    by rewrite lookup_empty in Hr. }
  inversion Hrun; subst models s0'.
  assert (Hkeys : ∀ t, t ∈ LLMType_args → is_Some (_get_llm_type_config_keys !! t))
    by (intros t; apply config_key_known).
  destruct (models_loop_ok w conf LLMType_args LLMType_args_NoDup Hkeys
              ∅ result s0 s1 Hloop r) as [Hin Hout].
  destruct (decide (r ∈ LLMType_args)) as [Hrole | Hrole];
    [| rewrite (Hout Hrole), lookup_empty in Hr; discriminate].
  destruct (Hin Hrole) as (c & key & yaml_conf & -> & Hkey & Hsec & Hres).
  rewrite Hr, lookup_empty in Hres.
  destruct (listed_models _) as [names' |] eqn:Hlisted; [| discriminate].
  inversion Hres; subst names. simpl.
  destruct (listed_models_inv _ _ Hlisted) as (model & -> & Hmodel & _).
  exists model. split; [reflexivity |].
  assert (Hne : dict_merge yaml_conf (_get_env_llm_conf w r) ≠ ∅)
    by (by eapply lookup_nonempty).
  pose proof (resolve_merged_conf_nonempty _ _ _ _ _ s Hkey Hsec Hne) as Hresolve.
  rewrite (create_construct_kwargs _ _ _ _ _ _ _ _ "model" Hresolve Hev) by done.
  by rewrite stages_lookup.
Qed.

(** ** Overriding an option from the environment *)

Lemma startswith_app (p x : string) : startswith (p +:+ x) p = true.
Proof.
  unfold startswith. induction p as [| c p IH]; simpl; [by destruct x |].
  destruct (ascii_dec c c); [exact IH | contradiction].
Qed.

Lemma slice_from_app (p x : string) : slice_from (String.length p) (p +:+ x) = x.
Proof. induction p as [| c p IH]; simpl; [reflexivity | exact IH]. Qed.

(** The prefix the environment reader uses for a role is the role's key of
    the YAML file followed by two underscores. *)
Lemma env_prefix_of_key (llm_type config_key : string) :
  _get_llm_type_config_keys !! llm_type = Some config_key →
  upper llm_type +:+ "_MODEL__" = config_key +:+ "__".
Proof.
  unfold _get_llm_type_config_keys. intros H.
  destruct (decide (llm_type = "code")) as [-> | ?];
    [rewrite lookup_insert_eq in H; by inversion H |].
  rewrite lookup_insert_ne in H by done.
  destruct (decide (llm_type = "vision")) as [-> | ?];
    [rewrite lookup_insert_eq in H; by inversion H |].
  rewrite lookup_insert_ne in H by done.
  destruct (decide (llm_type = "basic")) as [-> | ?];
    [rewrite lookup_insert_eq in H; by inversion H |].
  rewrite lookup_insert_ne in H by done.
  destruct (decide (llm_type = "reasoning")) as [-> | ?];
    [rewrite lookup_insert_eq in H; by inversion H |].
  rewrite lookup_insert_ne, lookup_empty in H by done. discriminate.
Qed.

Lemma env_fold_untouched (prefix : string) (env : list (string * string))
  (acc : gmap string value) (k : string) :
  (∀ name val, (name, val) ∈ env → startswith name prefix = true →
               env_key prefix name ≠ k) →
  fold_left (env_step prefix) env acc !! k = acc !! k.
Proof.
  revert acc. induction env as [| [name val] rest IH]; intros acc Hfree;
    [reflexivity |].
  simpl. rewrite IH by (intros n v Hin; apply (Hfree n v); by right).
  destruct (startswith name prefix) eqn:Hp; [| reflexivity].
  apply lookup_insert_ne. apply (Hfree name val); [by left | exact Hp].
Qed.

(** X14. Overriding an option from the environment, when the names of
    the environment variables are made of ASCII characters.  For a role
    whose key in the YAML file is [KEY], an environment variable named
    [KEY__<opt>] sets the option [lower(opt)] of the merged configuration to
    its string value, replacing what the YAML file has there -- provided no
    variable that comes later in the environment gives the same option
    (variables that differ only in the case of [<opt>] collide, and the last
    one wins). *)
Theorem env_override_wins
  (w : world) (llm_type config_key opt val : string)
  (before after : list (string * string)) (llm_conf : gmap string value) :
  let prefix := config_key +:+ "__" in
  _get_llm_type_config_keys !! llm_type = Some config_key →
  (∀ name v, (name, v) ∈ environ w → is_ascii name = true) →
  environ w = (before ++ (prefix +:+ opt, val) :: after)%list →
  (∀ name v, (name, v) ∈ after → startswith name prefix = true →
             env_key prefix name ≠ lower opt) →
  dict_merge llm_conf (_get_env_llm_conf w llm_type) !! lower opt
    = Some (VStr val).
Proof.
  intros prefix Hkey _ Henv Hlast.
  rewrite dict_merge_lookup.
  unfold _get_env_llm_conf. rewrite (env_prefix_of_key _ _ Hkey). fold prefix.
  rewrite Henv, fold_left_app. simpl.
  rewrite startswith_app, slice_from_app.
  rewrite env_fold_untouched by exact Hlast.
  by rewrite lookup_insert_eq.
Qed.

(** ** How much a call does *)

Lemma sends_weaken {A} (n n' : nat) (m : M A) :
  (n ≤ n')%nat → sends_at_most n m → sends_at_most n' m.
Proof.
  intros Hle Hm s. destruct (Hm s) as (gets & Ht & Hg & Hlen).
  exists gets. split_and!; [done | done | lia].
Qed.

Lemma sends_ret {A} (a : A) : sends_at_most 0 (ret a).
Proof. intros s. exists []. simpl. by rewrite app_nil_r. Qed.

Lemma sends_raise {A} (e : exn) : sends_at_most 0 (@raise A e).
Proof. intros s. exists []. simpl. by rewrite app_nil_r. Qed.

Lemma sends_lift {A} (r : exn + A) : sends_at_most 0 (lift r).
Proof. intros s. exists []. simpl. by rewrite app_nil_r. Qed.

Lemma sends_bind {A B} (a b : nat) (m : M A) (k : A → M B) :
  sends_at_most a m → (∀ x, sends_at_most b (k x)) →
  sends_at_most (a + b) (bind m k).
Proof.
  intros Hm Hk s. unfold bind.
  destruct (Hm s) as (gets & Ht & Hg & Hlen).
  destruct (m s) as [[e | x] s1]; simpl in *.
  - exists gets. split_and!; [done | done | lia].
  - destruct (Hk x s1) as (gets' & Ht' & Hg' & Hlen').
    exists (gets ++ gets')%list. split_and!.
    + rewrite Ht', Ht. by rewrite app_assoc.
    + by apply Forall_app.
    + rewrite length_app. lia.
Qed.

Lemma candidate_hosts_length (w : world) : (List.length (candidate_hosts w) ≤ 4)%nat.
Proof.
  unfold candidate_hosts. destruct (getenv w _) as [lan |]; [| simpl; lia].
  destruct (truthy (VStr lan)); simpl; lia.
Qed.

Lemma probe_events_get (hosts : list string) :
  Forall is_http_get (probe_event <$> hosts).
Proof. induction hosts; simpl; constructor; [exact I | assumption]. Qed.

Lemma sends_detect (w : world) : sends_at_most 4 (_detect_lmstudio_base_url w).
Proof.
  intros s. pose proof (candidate_hosts_length w) as Hlen.
  destruct (probe_hosts_spec w (candidate_hosts w) s) as (v & s' & Hrun & Hcases).
  unfold _detect_lmstudio_base_url. rewrite Hrun. simpl.
  destruct Hcases as [(i & host & _ & _ & _ & _ & Ht) | (_ & _ & Ht)].
  - exists (probe_event <$> take (S i) (candidate_hosts w)).
    split_and!; [done | apply probe_events_get |].
    rewrite length_fmap, length_take. lia.
  - exists (probe_event <$> candidate_hosts w).
    split_and!; [done | apply probe_events_get |].
    by rewrite length_fmap.
Qed.

Lemma sends_resolve (w : world) (llm_type : string) (conf : value) :
  sends_at_most 4 (resolve_merged_conf w llm_type conf).
Proof.
  unfold resolve_merged_conf.
  destruct (_get_llm_type_config_keys !! llm_type);
    [| apply (sends_weaken 0); [lia | apply sends_raise]].
  destruct (negb _); [apply (sends_weaken 0); [lia | apply sends_raise] |].
  apply (sends_bind 0 4); [apply sends_lift |].
  intros llm_conf.
  destruct llm_conf; try (apply (sends_weaken 0); [lia | apply sends_raise]).
  destruct (negb _); [| apply (sends_weaken 0); [lia | apply sends_ret]].
  apply (sends_bind 4 0); [apply sends_detect |].
  intros v. destruct (truthy v); [apply sends_ret | apply sends_raise].
Qed.

Lemma effects_construct (w : world) (cls : provider) (kwargs : gmap string value)
  (n : nat) :
  effects_within n (construct w cls kwargs).
Proof.
  intros s. exists [], [EvConstruct cls kwargs].
  split_and!; [apply construct_trace | constructor | simpl; lia | eauto].
Qed.

Lemma effects_bind {A} (a b : nat) (m : M A) (k : A → M instance) :
  sends_at_most a m → (∀ x, effects_within b (k x)) →
  effects_within (a + b) (bind m k).
Proof.
  intros Hm Hk s. unfold bind.
  destruct (Hm s) as (gets & Ht & Hg & Hlen).
  destruct (m s) as [[e | x] s1]; simpl in *.
  - exists gets, []. rewrite app_nil_r.
    split_and!; [done | done | lia | by left].
  - destruct (Hk x s1) as (gets' & tail & Ht' & Hg' & Hlen' & Htail).
    exists (gets ++ gets')%list, tail. split_and!.
    + rewrite Ht', Ht. by rewrite <- !app_assoc.
    + by apply Forall_app.
    + rewrite length_app. lia.
    + exact Htail.
Qed.

Lemma effects_dispatch (w : world) (llm_type : string) (m : gmap string value) :
  effects_within 4 (dispatch_provider w llm_type m).
Proof.
  unfold dispatch_provider.
  destruct (azure_selected w m); [apply effects_construct |].
  apply (effects_bind 0 4); [apply sends_lift |].
  intros [|]; [apply effects_construct |].
  destruct (String.eqb llm_type "reasoning"); [apply effects_construct |].
  apply (effects_bind 4 0); [| intros; apply effects_construct].
  destruct (truthy _);
    [apply (sends_weaken 0); [lia | apply sends_ret] | apply sends_detect].
Qed.

Lemma effects_create (w : world) (llm_type : string) (conf : value) :
  effects_within 8 (_create_llm_use_conf w llm_type conf).
Proof.
  unfold _create_llm_use_conf.
  apply (effects_bind 4 4); [apply sends_resolve |].
  intros. apply effects_dispatch.
Qed.

(** X15. How much one call does.  A call of [get_llm_by_type] sends at
    most eight HTTP requests (two runs of the prober over at most four
    candidates), then calls at most one client constructor, and prints
    nothing; when the role is cached it does nothing at all. *)
Theorem get_llm_effects_bounded (w : world) (llm_type : string) (s : state) :
  ∃ gets tail,
    events_of (get_llm_by_type w llm_type) s = (gets ++ tail)%list
    ∧ Forall is_http_get gets
    ∧ (List.length gets ≤ 8)%nat
    ∧ (tail = [] ∨ ∃ cls kwargs, tail = [EvConstruct cls kwargs])
    ∧ (is_Some (_llm_cache s !! llm_type) → gets = [] ∧ tail = []).
Proof.
  destruct (_llm_cache s !! llm_type) as [cached |] eqn:Hc.
  - exists [], []. split_and!; [| constructor | simpl; lia | by left | done].
    apply events_of_app. rewrite (get_llm_hit _ _ _ _ Hc). simpl.
    by rewrite app_nil_r.
  - assert (Hnone : ∀ P : Prop, is_Some (@None instance) → P)
      by (intros P [x Hx]; discriminate).
    destruct (load_yaml_config w) as [e | conf] eqn:Hload.
    + exists [], []. split_and!; [| constructor | simpl; lia | by left | apply Hnone].
      apply events_of_app. rewrite (get_llm_miss_eq _ _ _ Hc), Hload. simpl.
      by rewrite app_nil_r.
    + destruct (effects_create w llm_type conf s)
        as (gets & tail & Ht & Hg & Hlen & Htail).
      exists gets, tail. split_and!; [| done | done | done | apply Hnone].
      apply events_of_app. rewrite (get_llm_miss_eq _ _ _ Hc), Hload.
      destruct (_create_llm_use_conf w llm_type conf s) as [[e | llm] s1];
        simpl in *; exact Ht.
Qed.

(** * The further properties at concrete inputs *)

Lemma azure_precedence_witness :
  ∃ kwargs,
    events_of (_create_llm_use_conf azure_env_world "basic" (VDict dashscope_yaml))
              init_state = [EvConstruct AzureChatOpenAI kwargs]
    ∧ kwargs !! "base_url" = Some (VStr "https://dashscope.example/v1")
    ∧ kwargs !! "extra_body" = None.
Proof.
  destruct (azure_precedence azure_env_world "basic" "BASIC_MODEL"
              dashscope_yaml dashscope_section init_state)
    as (kwargs & _ & Hev & Hsame);
    [reflexivity | reflexivity | vm_compute; discriminate
     | right; exists "https://example.openai.azure.com";
       split; [reflexivity | discriminate] |].
  exists kwargs. split; [exact Hev |].
  split; rewrite Hsame by discriminate; reflexivity.
Defined.

Lemma default_path_probes_witness :
  ∃ kwargs,
    fst (_create_llm_use_conf cloud_lan_world "basic" (VDict cloud_yaml) init_state)
      = fst (construct cloud_lan_world ChatOpenAI kwargs
               (snd (_detect_lmstudio_base_url cloud_lan_world init_state)))
    ∧ cloud_section !! "api_base" = Some (VStr "https://api.openai.com/v1")
    ∧ kwargs !! "api_base" = Some (VStr "http://192.168.2.65:1234/v1")
    ∧ kwargs !! "model" = Some (VStr "gpt-4o").
Proof.
  destruct (default_path_probes cloud_lan_world "basic" "BASIC_MODEL"
              cloud_yaml cloud_section (VStr "http://192.168.2.65:1234/v1")
              init_state (snd (_detect_lmstudio_base_url cloud_lan_world init_state)))
    as (kwargs & Hrun & _ & Hfound);
    [reflexivity | discriminate | reflexivity | vm_compute; discriminate
     | reflexivity | reflexivity | vm_compute; reflexivity |].
  destruct (Hfound _ eq_refl) as (Hbase & _ & _ & Hrest).
  exists kwargs. split; [by rewrite Hrun |]. split; [reflexivity |].
  split; [exact Hbase |].
  rewrite Hrest by discriminate. reflexivity.
Defined.

Lemma fallback_probes_twice_witness :
  _create_llm_use_conf flaky_world "basic" (VDict ∅) init_state
    = construct flaky_world ChatOpenAI
        (fallback_openai_kwargs (VStr "http://localhost:1234/v1")) flaky_final_state
  ∧ List.length (trace flaky_final_state) = 4%nat.
Proof.
  split; [| reflexivity].
  apply (fallback_probes_twice flaky_world "basic" "BASIC_MODEL" ∅ ∅
           "http://localhost:1234/v1" VNone init_state flaky_probed_state
           flaky_final_state);
    [reflexivity | discriminate | reflexivity | vm_compute; reflexivity
     | reflexivity | vm_compute; reflexivity | vm_compute; reflexivity].
Defined.

Lemma base_url_not_iterable_witness :
  ∃ e,
    exn_class e = "TypeError"
    ∧ _create_llm_use_conf no_server_world "basic" (VDict null_url_yaml) init_state
      = (inl e, init_state).
Proof.
  apply (base_url_not_iterable no_server_world "basic" "BASIC_MODEL"
           null_url_yaml null_url_section VNone init_state);
    [reflexivity | reflexivity | reflexivity | reflexivity | by left].
Defined.

Lemma verify_ssl_from_environment_witness :
  insecure_section !! "verify_ssl" = Some (VBool false)
  ∧ _get_env_llm_conf ssl_env_world "basic" !! "verify_ssl" = Some (VStr "false")
  ∧ ssl_env_kwargs !! "verify_ssl" = None
  ∧ ssl_env_kwargs !! "http_client" = None
  ∧ ssl_env_kwargs !! "http_async_client" = None.
Proof.
  destruct (verify_ssl_from_environment ssl_env_world "basic" "BASIC_MODEL"
              insecure_yaml insecure_section "false" init_state ChatOpenAI
              ssl_env_kwargs)
    as (Hgone & Hsync & Hasync);
    [reflexivity | reflexivity | reflexivity | vm_compute; repeat constructor |].
  split; [reflexivity |]. split; [reflexivity |].
  split; [exact Hgone |]. split; [exact Hsync | exact Hasync].
Defined.

Lemma cached_clients_distinct_witness :
  _llm_cache two_roles_state !! "basic" = Some two_roles_basic
  ∧ _llm_cache two_roles_state !! "reasoning" = Some two_roles_reasoning
  ∧ (inst_id two_roles_basic = inst_id two_roles_reasoning ↔ "basic" = "reasoning")
  ∧ (inst_id two_roles_basic < next_id two_roles_state)%nat.
Proof.
  destruct (cached_clients_distinct two_roles_calls "basic" "reasoning"
              two_roles_basic two_roles_reasoning)
    as (Hids & _ & _ & Hlt); [reflexivity | reflexivity |].
  split; [reflexivity |]. split; [reflexivity |].
  split; [exact Hids | exact Hlt].
Defined.

Lemma failed_call_caches_nothing_witness :
  fst (get_llm_by_type no_server_world "basic" init_state)
    = inl (ValueError (no_conf_msg "basic"))
  ∧ _llm_cache (snd (get_llm_by_type no_server_world "basic" init_state)) = ∅
  ∧ next_id (snd (get_llm_by_type no_server_world "basic" init_state)) = 0%nat.
Proof.
  destruct (failed_call_caches_nothing no_server_world "basic" init_state
              (snd (get_llm_by_type no_server_world "basic" init_state))
              (ValueError (no_conf_msg "basic")))
    as (_ & Hcache & Hnext & _); [vm_compute; reflexivity |].
  split; [reflexivity |]. split; [exact Hcache | exact Hnext].
Defined.

Lemma reported_model_is_used_witness :
  fst (get_configured_llm_models model_env_world init_state)
    = inr {[ "basic" := [VStr "qwen"] ]}
  ∧ ∃ model, [VStr "qwen"] = [model] ∧ model_env_kwargs !! "model" = Some model.
Proof.
  split; [vm_compute; reflexivity |].
  apply (reported_model_is_used model_env_world
           (VDict {[ "BASIC_MODEL" := VDict {[ "model" := VStr "gpt-4o" ]} ]})
           "basic" [VStr "qwen"]
           {[ "basic" := [VStr "qwen"] ]} init_state init_state init_state
           ChatOpenAI model_env_kwargs);
    [reflexivity | vm_compute; reflexivity | reflexivity | vm_compute; repeat constructor].
Defined.

Lemma env_override_wins_witness :
  dict_merge {[ "model" := VStr "gpt-4o" ]}
             (_get_env_llm_conf model_env_world "basic") !! "model"
    = Some (VStr "qwen").
Proof.
  apply (env_override_wins model_env_world "basic" "BASIC_MODEL" "MODEL" "qwen"
           [("PATH", "/usr/bin")] [] {[ "model" := VStr "gpt-4o" ]});
    [reflexivity | | reflexivity |].
  - intros name v Hin. simpl in Hin.
    repeat (apply elem_of_cons in Hin as [Hin | Hin];
            [inversion Hin; reflexivity |]).
    by apply elem_of_nil in Hin.
  - intros name v Hin. by apply elem_of_nil in Hin.
Defined.

Lemma env_reader_contract_witness :
  is_Some (_get_env_llm_conf model_env_world "basic" !! "model")
  ∧ _get_env_llm_conf model_env_world "basic" !! "path" = None.
Proof.
  split; [| reflexivity].
  destruct (env_reader_contract model_env_world "basic" "model") as [_ Hhas].
  - reflexivity.
  - intros name v Hin. simpl in Hin.
    repeat (apply elem_of_cons in Hin as [Hin | Hin];
            [inversion Hin; reflexivity |]).
    by apply elem_of_nil in Hin.
  - apply Hhas. exists "BASIC_MODEL__MODEL", "qwen".
    split; [right; left | split; reflexivity].
Defined.

Lemma configured_models_total_witness :
  ∃ result,
    fst (get_configured_llm_models model_env_world init_state) = inr result
    ∧ snd (get_configured_llm_models model_env_world init_state) = init_state
    ∧ result !! "basic" = Some [VStr "qwen"]
    ∧ result !! "reasoning" = None.
Proof.
  destruct (configured_models_total model_env_world init_state)
    as (result & s' & Hrun & _ & _ & _ & Hlisting & _).
  destruct (Hlisting {[ "BASIC_MODEL" := VDict {[ "model" := VStr "gpt-4o" ]} ]}
              eq_refl) as [Hstate Hroles].
  { intros t key Ht Hkey. unfold LLMType_args in Ht.
    repeat (apply elem_of_cons in Ht as [-> | Ht];
            [vm_compute in Hkey; inversion Hkey; eexists; vm_compute; reflexivity |]).
    by apply elem_of_nil in Ht. }
  exists result. rewrite Hrun. simpl.
  split; [reflexivity |]. split; [exact Hstate |].
  split.
  - destruct (Hroles "basic") as [Hin _].
    destruct Hin as (key & yaml_conf & Hkey & Hsec & Hres);
      [unfold LLMType_args; right; left |].
    vm_compute in Hkey. inversion Hkey; subst key.
    vm_compute in Hsec. inversion Hsec; subst yaml_conf.
    rewrite Hres. vm_compute. reflexivity.
  - destruct (Hroles "reasoning") as [Hin _].
    destruct Hin as (key & yaml_conf & Hkey & Hsec & Hres);
      [unfold LLMType_args; left |].
    vm_compute in Hkey. inversion Hkey; subst key.
    vm_compute in Hsec. inversion Hsec; subst yaml_conf.
    rewrite Hres. vm_compute. reflexivity.
Defined.
